(** * The IIS check of dd-agent: [checks.d/iis.py]

    A shallow embedding of the check's four methods ([check],
    [_extract_metrics], [_submit_events], [_submit_metrics]) together with
    the Python semantics they rely on (dictionary lookup, [float], [str.format],
    exceptions, read-only named tuples), and the properties of the
    sampler-to-metric pipeline proved or refuted on that embedding. *)

From Stdlib Require Import ZArith Ascii String Floats.
From stdpp Require Import gmap strings list fin_maps pretty.

Open Scope string_scope.
Open Scope list_scope.

(** ** Python values and exceptions *)

(** The raw values that a sampled WMI object carries for the class
    [Win32_PerfFormattedData_W3SVC_WebService]: integers, strings, or [None]
    for a property the provider left empty. *)
Inductive PyVal : Type :=
  | PyInt (n : Z)
  | PyStr (s : string)
  | PyNone.

#[global] Instance PyVal_eq_dec : EqDecision PyVal.
Proof. solve_decision. Defined.

(** The exceptions that the code of the check can raise. *)
Inductive exn : Type :=
  | KeyError (key : PyVal)
  | IndexError
  | ValueError
  | TypeError
  | OverflowError
  | AttributeError
  | UnboundLocalError (var : string).

(** [str(v)], as used by ['%s' % v] and by [str.format]. *)
Definition py_str (v : PyVal) : string :=
  match v with
  | PyInt n => pretty n
  | PyStr s => s
  | PyNone => "None"
  end.

(** [v == s] for a string literal [s]: a value that is not a string is never
    equal to one. *)
Definition py_eq_str (v : PyVal) (s : string) : bool :=
  match v with
  | PyStr t => String.eqb t s
  | _ => false
  end.

(** [v == 0]. *)
Definition py_eq_zero (v : PyVal) : bool :=
  match v with
  | PyInt n => Z.eqb n 0
  | _ => false
  end.

(** [v in l] for a list [l] of strings. *)
Definition py_in (v : PyVal) (l : list string) : bool :=
  existsb (py_eq_str v) l.

(** ** 64-bit floats and [float()] *)

Definition float64 : Type := PrimFloat.float.

(** [float(n)] for an integer: the nearest binary64 value, ties to even;
    [OverflowError] when [n] is out of the range of a double. *)
Definition float_of_int (n : Z) : exn + float64 :=
  let x := SF2Prim (binary_normalize 53 1024 n 0 false) in
  if PrimFloat.is_infinity x then inl OverflowError else inr x.

Section Float.

(** [float(s)] for a string is Python's own parser; it is a parameter of the
    development: [None] stands for the [ValueError] of a string that is not
    a number. *)
Variable float_of_str : string -> option float64.

(** [float(v)]: [TypeError] on [None], [ValueError] on a string that is not
    a number. *)
Definition py_float (v : PyVal) : exn + float64 :=
  match v with
  | PyInt n => float_of_int n
  | PyStr s =>
      match float_of_str s with
      | Some x => inr x
      | None => inl ValueError
      end
  | PyNone => inl TypeError
  end.

End Float.

(** ** [str.format] *)

(** The replacement fields that occur in the check are plain: [{0}] and
    [{name}].  A field whose name is empty or a number is positional, any
    other name is looked up among the keyword arguments.  Fields are
    substituted from left to right and the first failing lookup raises. *)

Definition is_digit (c : ascii) : bool :=
  let n := nat_of_ascii c in (48 <=? n)%nat && (n <=? 57)%nat.

Fixpoint all_digits (s : string) : bool :=
  match s with
  | EmptyString => true
  | String c s' => is_digit c && all_digits s'
  end.

Fixpoint digits_to_nat (s : string) (acc : nat) : nat :=
  match s with
  | EmptyString => acc
  | String c s' => digits_to_nat s' (10 * acc + (nat_of_ascii c - 48))
  end.

Fixpoint assoc {A : Type} (k : string) (l : list (string * A)) : option A :=
  match l with
  | [] => None
  | (k', v) :: l' => if String.eqb k' k then Some v else assoc k l'
  end.

(** The value of the field named [field]; [auto] counts the [{}] fields seen
    so far. *)
Definition format_field (field : string) (auto : nat)
    (args : list PyVal) (kwargs : list (string * PyVal)) : exn + PyVal :=
  match field with
  | EmptyString =>
      match nth_error args auto with
      | Some v => inr v
      | None => inl IndexError
      end
  | _ =>
      if all_digits field then
        match nth_error args (digits_to_nat field 0) with
        | Some v => inr v
        | None => inl IndexError
        end
      else
        match assoc field kwargs with
        | Some v => inr v
        | None => inl (KeyError (PyStr field))
        end
  end.

(** [format_scan tpl field auto args kwargs]: [field] is [Some f] while the
    scan is inside a replacement field whose name read so far is [f]. *)
Fixpoint format_scan (tpl : string) (field : option string) (auto : nat)
    (args : list PyVal) (kwargs : list (string * PyVal)) : exn + string :=
  match tpl, field with
  | EmptyString, None => inr EmptyString
  | EmptyString, Some _ => inl ValueError
  | String c tpl', Some f =>
      if Ascii.eqb c "}" then
        match format_field f auto args kwargs with
        | inl e => inl e
        | inr v =>
            let auto' := match f with EmptyString => S auto | _ => auto end in
            match format_scan tpl' None auto' args kwargs with
            | inl e => inl e
            | inr out => inr (py_str v +:+ out)
            end
        end
      else format_scan tpl' (Some (f +:+ String c EmptyString)) auto args kwargs
  | String c tpl', None =>
      if Ascii.eqb c "{" then format_scan tpl' (Some EmptyString) auto args kwargs
      else if Ascii.eqb c "}" then inl ValueError
      else
        match format_scan tpl' None auto args kwargs with
        | inl e => inl e
        | inr out => inr (String c out)
        end
  end.

(** [tpl.format( *args, **kwargs)]. *)
Definition py_format (tpl : string) (args : list PyVal)
    (kwargs : list (string * PyVal)) : exn + string :=
  format_scan tpl None 0 args kwargs.

(** ** The world outside the check, and the monad of the methods *)

(** [AgentCheck.OK] and [AgentCheck.CRITICAL], the two statuses that
    [iis.py] names. *)
Inductive Status : Type := OK | CRITICAL.

#[global] Instance Status_eq_dec : EqDecision Status.
Proof. solve_decision. Defined.

(** One call [self.service_check(check, status, tags=tags)]. *)
Record ServiceCheck : Type := mkServiceCheck {
  sc_check : string;
  sc_status : Status;
  sc_tags : list string
}.

#[global] Instance ServiceCheck_eq_dec : EqDecision ServiceCheck.
Proof. solve_decision. Defined.

(** One call [self.gauge(metric, value, tags)] or [self.rate(metric, value,
    tags)]; [sub_kind] is the name of the method that was called. *)
Record Submission : Type := mkSubmission {
  sub_kind : string;
  sub_metric : string;
  sub_value : float64;
  sub_tags : list string
}.

(** What a run leaves behind: the warnings written to [self.log], the service
    checks and the metrics handed to the agent, each in the order of the
    calls. *)
Record World : Type := mkWorld {
  warnings : list string;
  service_checks : list ServiceCheck;
  submissions : list Submission
}.

Definition empty_world : World := mkWorld [] [] [].

(** A method either returns a value or raises; what it did to the world
    before raising stays done. *)
Inductive outcome (A : Type) : Type :=
  | Return (a : A)
  | Raise (e : exn).
Arguments Return {A} a.
Arguments Raise {A} e.

Definition M (A : Type) : Type := World -> World * outcome A.

Definition ret {A : Type} (a : A) : M A := fun w => (w, Return a).

Definition raise {A : Type} (e : exn) : M A := fun w => (w, Raise e).

Definition bind {A B : Type} (m : M A) (k : A -> M B) : M B :=
  fun w =>
    match m w with
    | (w', Return a) => k a w'
    | (w', Raise e) => (w', Raise e)
    end.

Declare Scope py_scope.
Delimit Scope py_scope with py.
Notation "x <- m ;; k" := (bind m (fun x => k))
  (at level 100, m at next level, right associativity) : py_scope.
Notation "m ;; k" := (bind m (fun _ => k))
  (at level 100, right associativity) : py_scope.
Open Scope py_scope.

(** A pure computation that may raise, run inside a method. *)
Definition lift {A : Type} (r : exn + A) : M A :=
  match r with
  | inl e => raise e
  | inr a => ret a
  end.

(** [try: body except ...: handler]: [handlers e] is the handler of the first
    [except] clause that matches [e], if there is one. *)
Definition try_except {A : Type} (body : M A) (handlers : exn -> option (M A)) : M A :=
  fun w =>
    match body w with
    | (w', Return a) => (w', Return a)
    | (w', Raise e) =>
        match handlers e with
        | Some handler => handler w'
        | None => (w', Raise e)
        end
    end.

(** [self.log.warning(msg)]. *)
Definition log_warning (msg : string) : M unit :=
  fun w => (mkWorld (warnings w ++ [msg]) (service_checks w) (submissions w), Return tt).

(** [self.service_check(check, status, tags=tags)]. *)
Definition service_check (check : string) (status : Status) (tags : list string) : M unit :=
  fun w =>
    (mkWorld (warnings w) (service_checks w ++ [mkServiceCheck check status tags])
       (submissions w), Return tt).

(** [self.gauge] and [self.rate] of [AgentCheck]. *)
Definition submit (kind metric : string) (value : float64) (tags : list string) : M unit :=
  fun w =>
    (mkWorld (warnings w) (service_checks w)
       (submissions w ++ [mkSubmission kind metric value tags]), Return tt).

Definition gauge : string -> float64 -> list string -> M unit := submit "gauge".
Definition rate : string -> float64 -> list string -> M unit := submit "rate".

(** ** The data of the check *)

(** [WMIMetric = namedtuple('WMIMetric', ['name', 'value', 'tags'])]. *)
Record WMIMetric : Type := mkWMIMetric {
  name : string;
  value : float64;
  tags : list string
}.

(** Assigning to a field of a named tuple: the fields are read-only
    properties, so [m.name = v] raises [AttributeError] and leaves [m] as it
    was. *)
Definition setattr_name (m : WMIMetric) (v : string) : M WMIMetric :=
  raise AttributeError.

(** One object yielded by the sampler: its properties with their raw values,
    in the order in which [iteritems()] yields them. *)
Definition wmi_obj : Type := list (string * PyVal).

Definition iteritems (o : wmi_obj) : list (string * PyVal) := o.

(** [o[key]]. *)
Definition getitem (o : wmi_obj) (key : string) : M PyVal :=
  match assoc key o with
  | Some v => ret v
  | None => raise (KeyError (PyStr key))
  end.

(** [IIS.METRICS]: (metric, submission method, WMI property). *)
Definition METRICS : list (string * string * string) :=
  [ ("iis.uptime", "gauge", "ServiceUptime");
    ("iis.net.bytes_sent", "rate", "TotalBytesSent");
    ("iis.net.bytes_rcvd", "rate", "TotalBytesReceived");
    ("iis.net.bytes_total", "rate", "TotalBytesTransferred");
    ("iis.net.num_connections", "gauge", "CurrentConnections");
    ("iis.net.files_sent", "rate", "TotalFilesSent");
    ("iis.net.files_rcvd", "rate", "TotalFilesReceived");
    ("iis.net.connection_attempts", "rate", "TotalConnectionAttemptsAllInstances");
    ("iis.httpd_request_method.get", "rate", "TotalGetRequests");
    ("iis.httpd_request_method.post", "rate", "TotalPostRequests");
    ("iis.httpd_request_method.head", "rate", "TotalHeadRequests");
    ("iis.httpd_request_method.put", "rate", "TotalPutRequests");
    ("iis.httpd_request_method.delete", "rate", "TotalDeleteRequests");
    ("iis.httpd_request_method.options", "rate", "TotalOptionsRequests");
    ("iis.httpd_request_method.trace", "rate", "TotalTraceRequests");
    ("iis.errors.not_found", "rate", "TotalNotFoundErrors");
    ("iis.errors.locked", "rate", "TotalLockedErrors");
    ("iis.users.anon", "rate", "TotalAnonymousUsers");
    ("iis.users.nonanon", "rate", "TotalNonAnonymousUsers");
    ("iis.requests.cgi", "rate", "TotalCGIRequests");
    ("iis.requests.isapi", "rate", "TotalISAPIExtensionRequests") ].

Definition SERVICE_CHECK : string := "iis.site_up".
Definition NAMESPACE : string := "root\CIMV2".
Definition CLASS : string := "Win32_PerfFormattedData_W3SVC_WebService".

(** ** Loops *)

(** [for x in l: body], where [s] collects the variables that the body
    reads and assigns; a [continue] is the body returning early. *)
Fixpoint for_each {S A : Type} (body : S -> A -> M S) (l : list A) (s : S) : M S :=
  match l with
  | [] => ret s
  | x :: l' => s' <- body s x ;; for_each body l' s'
  end.

(** ** [_extract_metrics] *)

Definition NON_DIGIT : string :=
  "When extracting metrics with WMI, found a non digit value for property '{0}'.".

Definition MISSING : string :=
  "When extracting metrics with WMI, found a missing property '{0}'".

(** [list(tags) if tags else []]. *)
Definition copy_or_empty (tags : list string) : list string :=
  match tags with
  | [] => []
  | _ :: _ => tags
  end.

Section Extraction.

Variable float_of_str : string -> option float64.

(** The body of the loop over [wmi_obj.iteritems()]; the variable it
    assigns is [metrics]. *)
Definition extract_property (sitename : string) (tags : list string)
    (metrics : list WMIMetric) (item : string * PyVal) : M (list WMIMetric) :=
  let '(wmi_property, wmi_value) := item in
  try_except
    (x <- lift (py_float float_of_str wmi_value) ;;
     ret (metrics ++ [mkWMIMetric wmi_property x (tags ++ [sitename])]))
    (fun e =>
       match e with
       | ValueError =>
           Some (msg <- lift (py_format NON_DIGIT [PyStr wmi_property] []) ;;
                 log_warning msg ;;
                 ret metrics)
       | TypeError =>
           Some (msg <- lift (py_format MISSING [PyStr wmi_property] []) ;;
                 log_warning msg ;;
                 ret metrics)
       | _ => None
       end).

(** The body of the loop over [wmi_sampler]; the variables it assigns are
    [tags], which is the parameter of the method, and [metrics].  A
    [sitename] that is in [sites] is a string, on which [py_str] is the
    identity.  Every turn binds [tags] to a new list, and every metric gets
    the new list [tags + [sitename]]: no list is shared between the caller,
    the turns and the metrics, so the lists are plain values here. *)
Definition extract_object (sites : list string)
    (s : list string * list WMIMetric) (o : wmi_obj) : M (list string * list WMIMetric) :=
  let '(tags, metrics) := s in
  let tags := copy_or_empty tags in
  sitename <- getitem o "Name" ;;
  if negb (py_in sitename sites) then ret (tags, metrics)
  else
    let tags :=
      if negb (py_eq_str sitename "_Total") then tags ++ [py_str sitename] else tags in
    metrics <- for_each (extract_property (py_str sitename) tags) (iteritems o) metrics ;;
    ret (tags, metrics).

Definition _extract_metrics (wmi_sampler : list wmi_obj) (sites : list string)
    (tags : list string) : M (list WMIMetric) :=
  s <- for_each (extract_object sites) wmi_sampler (tags, []) ;;
  ret (snd s).

End Extraction.

(** ** [_submit_events] *)

(** Reading the local variable [status], which is unbound until the first
    assignment. *)
Definition read_status (status : option Status) : M Status :=
  match status with
  | Some st => ret st
  | None => raise (UnboundLocalError "status")
  end.

(** [expected_sites.remove(sitename)]: [KeyError] when the element is not in
    the set. *)
Definition set_remove (sitename : PyVal) (expected_sites : gset string) : M (gset string) :=
  match sitename with
  | PyStr s =>
      if bool_decide (s ∈ expected_sites) then ret (expected_sites ∖ {[s]})
      else raise (KeyError sitename)
  | _ => raise (KeyError sitename)
  end.

(** The body of the loop over [wmi_sampler]; the variables it assigns are
    [status] and the set [expected_sites]. *)
Definition submit_event (s : option Status * gset string) (o : wmi_obj)
    : M (option Status * gset string) :=
  let '(status, expected_sites) := s in
  sitename <- getitem o "Name" ;;
  if py_eq_str sitename "_Total" then ret (status, expected_sites)
  else
    uptime <- getitem o "ServiceUptime" ;;
    let status :=
      if py_eq_zero uptime
      then Some (if py_eq_zero uptime then CRITICAL else OK)
      else status in
    st <- read_status status ;;
    service_check "iis.site_up" st ["site:" +:+ py_str sitename] ;;
    expected_sites <- set_remove sitename expected_sites ;;
    ret (status, expected_sites).

(** The body of the loop over what is left of [expected_sites]. *)
Definition submit_missing (_ : unit) (site : string) : M unit :=
  service_check "iis.site_up" CRITICAL ["site:" +:+ site].

(** A Python set is iterated in an order of its own; [elements] fixes one. *)
Definition _submit_events (wmi_sampler : list wmi_obj) (sites : list string) : M unit :=
  let expected_sites : gset string := list_to_set sites in
  s <- for_each submit_event wmi_sampler (None, expected_sites) ;;
  for_each submit_missing (elements (snd s)) tt.

(** ** [_submit_metrics] *)

(** Modelled from the spec: [AgentCheck.getattr], which [_submit_metrics]
    calls as [self.getattr(mtype)] and which is not among the sources.  The
    spec has the dispatcher look up the submission method by the name of the
    kind, [gauge] or [rate]. *)
Definition getattr (mtype : string) : M (string -> float64 -> list string -> M unit) :=
  if String.eqb mtype "gauge" then ret gauge
  else if String.eqb mtype "rate" then ret rate
  else raise AttributeError.

(** [metrics_by_property[key]]. *)
Definition lookup_metric (metrics_by_property : gmap string (string * string))
    (key : string) : M (string * string) :=
  match metrics_by_property !! key with
  | Some entry => ret entry
  | None => raise (KeyError (PyStr key))
  end.

(** The body of the loop over [wmi_metrics].  The first three lines are the
    [if]/[elif]/[elif] chain: it yields the metric to submit, or [None] for
    [continue]. *)
Definition submit_metric (metrics_by_property : gmap string (string * string))
    (_ : unit) (m : WMIMetric) : M unit :=
  next <-
    (if String.eqb (name m) "TotalBytesTransfered" then
       m' <- setattr_name m "TotalBytesTransferred" ;; ret (Some m')
     else if String.eqb (name m) "TotalConnectionAttemptsallinstances" then
       m' <- setattr_name m "TotalConnectionAttemptsAllinstances" ;; ret (Some m')
     else if negb (bool_decide (name m ∈ dom metrics_by_property)) then ret None
     else ret (Some m)) ;;
  match next with
  | None => ret tt
  | Some m =>
      entry <- lookup_metric metrics_by_property (name m) ;;
      let '(metric, mtype) := entry in
      submittor <- getattr mtype ;;
      submittor metric (value m) (tags m)
  end.

Definition _submit_metrics (wmi_metrics : list WMIMetric)
    (metrics_by_property : gmap string (string * string)) : M unit :=
  for_each (submit_metric metrics_by_property) wmi_metrics tt.

(** ** [check] *)

(** The configuration of one instance: a dictionary with the optional keys
    [host], [username], [password], [tags] and [sites]; [check] reads each
    of them with [instance.get(key, default)]. *)
Record Instance : Type := mkInstance {
  i_host : option PyVal;
  i_username : option PyVal;
  i_password : option PyVal;
  i_tags : option (list string);
  i_sites : option (list string)
}.

(** The call [self._extract_metrics(wmi_sampler, instance_tags)] of [check]:
    two arguments for the three parameters [wmi_sampler], [sites] and [tags]
    of the method, so Python raises [TypeError] when it binds them, before
    the body of [_extract_metrics] runs. *)
Definition _extract_metrics_without_sites (wmi_sampler : list wmi_obj)
    (instance_tags : list string) : M (list WMIMetric) :=
  raise TypeError.

Section Check.

(** The sampler adapter is outside the check: [_get_wmi_sampler] hands out
    a sampler, [sample] refreshes it, and iterating it yields the objects
    of the last sample. *)
Variable WMISampler : Type.
Variable _get_wmi_sampler :
  string -> string -> list string -> PyVal -> PyVal -> string -> PyVal -> PyVal ->
  M WMISampler.
Variable sample : WMISampler -> M WMISampler.
Variable objects : WMISampler -> list wmi_obj.

(** The lines of [check] that follow the assignment of [instance_key]. *)
Definition sample_and_submit (host user password : PyVal)
    (instance_tags sites : list string) (instance_key : string) : M unit :=
  let properties := map (fun x => snd x) METRICS in
  let metrics_by_property : gmap string (string * string) :=
    fold_left (fun acc '(metric, metric_type, prop) => <[prop := (metric, metric_type)]> acc)
      METRICS ∅ in
  wmi_sampler <-
    _get_wmi_sampler instance_key CLASS properties PyNone host NAMESPACE user password ;;
  wmi_sampler <- sample wmi_sampler ;;
  metrics <- _extract_metrics_without_sites (objects wmi_sampler) instance_tags ;;
  _submit_events (objects wmi_sampler) sites ;;
  _submit_metrics metrics metrics_by_property.

Definition check (instance : Instance) : M unit :=
  let host := default PyNone (i_host instance) in
  let user := default PyNone (i_username instance) in
  let password := default PyNone (i_password instance) in
  let instance_tags := default [] (i_tags instance) in
  let sites := default ["_Total"] (i_sites instance) in
  instance_key <-
    lift (py_format "{host}:{namespace}:{class}" [host; PyStr NAMESPACE; PyStr CLASS] []) ;;
  sample_and_submit host user password instance_tags sites instance_key.

End Check.

(** ** Running the methods on concrete inputs *)

(** A parser to run [_extract_metrics] with: it reads the decimal integer
    literals, with an optional sign, and takes every other string for not a
    number.  Python's [float] agrees with it on those literals and on the
    site and garbage strings of the examples below. *)
Definition float_of_literal (s : string) : option float64 :=
  let number (negative : bool) (digits : string) : option float64 :=
    match digits with
    | EmptyString => None
    | _ =>
        if all_digits digits then
          let n := Z.of_nat (digits_to_nat digits 0) in
          Some (SF2Prim (binary_normalize 53 1024 (if negative then - n else n) 0 false))
        else None
    end in
  match s with
  | String "-" digits => number true digits
  | String "+" digits => number false digits
  | _ => number false s
  end.

Definition total_obj : wmi_obj :=
  [("Name", PyStr "_Total"); ("ServiceUptime", PyInt 500); ("TotalGetRequests", PyInt 10)].

Definition site1_down : wmi_obj :=
  [("Name", PyStr "site1"); ("ServiceUptime", PyInt 0); ("TotalGetRequests", PyStr "garbage")].

Definition site1_up : wmi_obj :=
  [("Name", PyStr "site1"); ("ServiceUptime", PyInt 5)].

Definition site2_up : wmi_obj :=
  [("Name", PyStr "site2"); ("ServiceUptime", PyInt 7); ("CurrentConnections", PyNone)].

(** [metrics_by_property] as [check] builds it from [METRICS]. *)
Definition catalog : gmap string (string * string) :=
  fold_left (fun acc '(metric, metric_type, prop) => <[prop := (metric, metric_type)]> acc)
    METRICS ∅.

(** ** What a run adds to the world *)

Definition add_warnings (msgs : list string) (w : World) : World :=
  mkWorld (warnings w ++ msgs) (service_checks w) (submissions w).

Definition add_checks (cs : list ServiceCheck) (w : World) : World :=
  mkWorld (warnings w) (service_checks w ++ cs) (submissions w).

Definition add_submissions (subs : list Submission) (w : World) : World :=
  mkWorld (warnings w) (service_checks w) (submissions w ++ subs).

(** ** The extraction, record by record and property by property *)

Definition non_digit_warning (property : string) : string :=
  "When extracting metrics with WMI, found a non digit value for property '"
  +:+ property +:+ "'.".

Definition missing_warning (property : string) : string :=
  "When extracting metrics with WMI, found a missing property '" +:+ property +:+ "'".

(** A record is extracted when it has a [Name] that is in the site filter. *)
Definition requested (sites : list string) (o : wmi_obj) : bool :=
  match assoc "Name" o with
  | Some sitename => py_in sitename sites
  | None => false
  end.

Section ExtractionSpec.

Variable float_of_str : string -> option float64.

(** What one property of an extracted record gives: the name and value of
    one metric and no warning when its raw value is coerced to a float; no
    metric and one warning naming the property when the raw value is not a
    number or is missing. *)
Definition coerce_property (item : string * PyVal)
    : list (string * float64) * list string :=
  match py_float float_of_str (snd item) with
  | inr x => ([(fst item, x)], [])
  | inl ValueError => ([], [non_digit_warning (fst item)])
  | inl TypeError => ([], [missing_warning (fst item)])
  | inl _ => ([], [])
  end.

Definition coerced_values (sites : list string) (o : wmi_obj) : list (string * float64) :=
  if requested sites o then flat_map (fun item => fst (coerce_property item)) o else [].

Definition coercion_warnings (sites : list string) (o : wmi_obj) : list string :=
  if requested sites o then flat_map (fun item => snd (coerce_property item)) o else [].

(** The metrics that the properties [items] of a record add, given the tags
    in force for the record. *)
Definition metrics_of_items (sitename : string) (tags : list string)
    (items : list (string * PyVal)) : list WMIMetric :=
  flat_map
    (fun item =>
       map (fun nv => mkWMIMetric (fst nv) (snd nv) (tags ++ [sitename]))
         (fst (coerce_property item)))
    items.

End ExtractionSpec.

(** The tags that [_extract_metrics] holds in its variable [tags] once it
    has gone through [wmi_sampler]: the tags it started from, then the name
    of every extracted record other than [_Total]. *)
Fixpoint tags_after (sites : list string) (wmi_sampler : list wmi_obj)
    (tags : list string) : list string :=
  match wmi_sampler with
  | [] => tags
  | o :: rest =>
      match assoc "Name" o with
      | Some sitename =>
          if py_in sitename sites && negb (py_eq_str sitename "_Total")
          then tags_after sites rest (tags ++ [py_str sitename])
          else tags_after sites rest tags
      | None => tags_after sites rest tags
      end
  end.

(** ** The submission, metric by metric *)

(** What the dispatcher submits for a metric whose name is a key of the
    catalogue, and nothing for any other. *)
Definition dispatch (metrics_by_property : gmap string (string * string))
    (m : WMIMetric) : list Submission :=
  match metrics_by_property !! name m with
  | Some (metric, mtype) => [mkSubmission mtype metric (value m) (tags m)]
  | None => []
  end.

(** The two names that [_submit_metrics] sets out to correct. *)
Definition is_alias (property : string) : bool :=
  String.eqb property "TotalBytesTransfered"
  || String.eqb property "TotalConnectionAttemptsallinstances".

(** ** [__init__] and [_get_wmi_conn] *)

(** ["%s:%s:%s" % (host, user, password)]. *)
Definition conn_key (host user password : PyVal) : string :=
  py_str host +:+ ":" +:+ py_str user +:+ ":" +:+ py_str password.

Section Connections.

(** [wmi.WMI(host, user=user, password=password)] is the third-party call
    that opens a connection.  It is outside the check: [Conn] is what it
    returns, [E] what it raises, and [Ext] the state of the outside, which
    only that call reads and changes. *)
Variable Conn E Ext : Type.
Variable WMI : PyVal -> PyVal -> PyVal -> Ext -> Ext * (E + Conn).

(** [self.wmi_conns] as [__init__] leaves it. *)
Definition __init__ : gmap string Conn := ∅.

(** The method reads and assigns the dictionary [self.wmi_conns]; it raises
    what [wmi.WMI] raises, or what the lookup of its last line raises. *)
Definition _get_wmi_conn (host user password : PyVal)
    (wmi_conns : gmap string Conn) (ext : Ext)
    : gmap string Conn * Ext * ((exn + E) + Conn) :=
  let key := conn_key host user password in
  let '(wmi_conns, ext, opened) :=
    if negb (bool_decide (key ∈ dom wmi_conns)) then
      match WMI host user password ext with
      | (ext, inr conn) => (<[key := conn]> wmi_conns, ext, inr tt)
      | (ext, inl e) => (wmi_conns, ext, inl e)
      end
    else (wmi_conns, ext, inr tt) in
  match opened with
  | inl e => (wmi_conns, ext, inl (inr e))
  | inr _ =>
      match wmi_conns !! key with
      | Some conn => (wmi_conns, ext, inr conn)
      | None => (wmi_conns, ext, inl (inl (KeyError (PyStr key))))
      end
  end.

End Connections.

(** A stand-in for [wmi.WMI] to run [_get_wmi_conn] with: the connection is
    the triple it was opened for, the outside counts the calls, and a host
    that is [None] cannot be reached. *)
Definition open_connection (host user password : PyVal) (calls : nat)
    : nat * (string + PyVal * PyVal * PyVal) :=
  match host with
  | PyNone => (S calls, inl "unreachable")
  | _ => (S calls, inr (host, user, password))
  end.

(** ** The catalogue by property *)

(** The loop of [check] that fills [metrics_by_property], for any table of
    (metric, submission method, WMI property). *)
Definition metrics_by_property_of (table : list (string * string * string))
    : gmap string (string * string) :=
  fold_left (fun acc '(metric, metric_type, prop) => <[prop := (metric, metric_type)]> acc)
    table ∅.

(** ** The availability pass, read off the sample *)

(** The record is the one of the pseudo-site [_Total]. *)
Definition is_total (o : wmi_obj) : bool :=
  match assoc "Name" o with
  | Some sitename => py_eq_str sitename "_Total"
  | None => false
  end.

(** The site that a record reports on: its [Name], when that is a string
    other than [_Total]. *)
Definition site_of (o : wmi_obj) : option string :=
  match assoc "Name" o with
  | Some (PyStr s) => if String.eqb s "_Total" then None else Some s
  | _ => None
  end.

(** The sites that the sample reports on, in the order of the records. *)
Definition sampled_sites (wmi_sampler : list wmi_obj) : list string :=
  omap site_of wmi_sampler.

(** The check that [_submit_events] emits for a site it takes for down. *)
Definition critical (site : string) : ServiceCheck :=
  mkServiceCheck "iis.site_up" CRITICAL ["site:" +:+ site].

(** The first record that is not [_Total], if there is one, has a
    [ServiceUptime] equal to zero. *)
Fixpoint first_site_is_down (wmi_sampler : list wmi_obj) : Prop :=
  match wmi_sampler with
  | [] => True
  | o :: rest =>
      if is_total o then first_site_is_down rest
      else exists uptime, assoc "ServiceUptime" o = Some uptime /\ py_eq_zero uptime = true
  end.

(** The samples on which [_submit_events] runs to its end: every record has
    a string for [Name]; every record other than [_Total] has a
    [ServiceUptime] and is named after a site of [sites], no two after the
    same; and the first of them is down. *)
Definition reconcilable (sites : list string) (wmi_sampler : list wmi_obj) : Prop :=
  Forall (fun o => exists s, assoc "Name" o = Some (PyStr s)) wmi_sampler
  /\ Forall (fun o => is_total o = false -> is_Some (assoc "ServiceUptime" o)) wmi_sampler
  /\ first_site_is_down wmi_sampler
  /\ NoDup (sampled_sites wmi_sampler)
  /\ Forall (fun s => s ∈ sites) (sampled_sites wmi_sampler).

(** ** The metrics of a sample, with their tags *)

(** What [_extract_metrics] returns on a sample whose records all have a
    [Name] and whose integers all fit a double: record by record, with the
    tags that the records before have left in [tags]. *)
Fixpoint metrics_of_sample (float_of_str : string -> option float64)
    (sites : list string) (wmi_sampler : list wmi_obj) (tags : list string)
    : list WMIMetric :=
  match wmi_sampler with
  | [] => []
  | o :: rest =>
      metrics_of_items float_of_str
        (match assoc "Name" o with Some sitename => py_str sitename | None => EmptyString end)
        (tags_after sites [o] tags)
        (if requested sites o then o else [])
      ++ metrics_of_sample float_of_str sites rest (tags_after sites [o] tags)
  end.

(** The sample is one that [_extract_metrics] goes through without raising:
    every record has a [Name] and no integer is too large for a double. *)
Definition extractable (float_of_str : string -> option float64)
    (wmi_sampler : list wmi_obj) : Prop :=
  Forall (fun o => is_Some (assoc "Name" o)) wmi_sampler
  /\ Forall (fun o => Forall (fun item => py_float float_of_str (snd item)
                                          <> inl OverflowError) o) wmi_sampler.

(** * Properties *)

(** ** The monad and the loops *)

Lemma bind_ret {A B : Type} (a : A) (k : A -> M B) (w : World) :
  bind (ret a) k w = k a w.
Proof. reflexivity. Qed.

Lemma bind_raise {A B : Type} (e : exn) (k : A -> M B) (w : World) :
  bind (raise e) k w = (w, Raise e).
Proof. reflexivity. Qed.

Lemma bind_run {A B : Type} (m : M A) (k : A -> M B) (w w' : World) (a : A) :
  m w = (w', Return a) -> bind m k w = k a w'.
Proof. intros Hm. unfold bind. now rewrite Hm. Qed.

Lemma for_each_nil {S A : Type} (body : S -> A -> M S) (s : S) (w : World) :
  for_each body [] s w = (w, Return s).
Proof. reflexivity. Qed.

Lemma for_each_cons {S A : Type} (body : S -> A -> M S) (x : A) (l : list A) (s : S)
    (w : World) :
  for_each body (x :: l) s w = bind (body s x) (for_each body l) w.
Proof. reflexivity. Qed.

Lemma for_each_app {S A : Type} (body : S -> A -> M S) (l1 l2 : list A) (s : S) (w : World) :
  for_each body (l1 ++ l2) s w = bind (for_each body l1 s) (for_each body l2) w.
Proof.
  revert s w. induction l1 as [|x l1 IH]; intros s w; simpl.
  - reflexivity.
  - unfold bind. destruct (body s x w) as [w' [s'|e]]; [|reflexivity].
    rewrite IH. reflexivity.
Qed.

Lemma filter_none {A : Type} (P : A -> Prop) `{forall x, Decision (P x)} (l : list A) :
  Forall (fun x => ~ P x) l -> filter P l = [].
Proof.
  induction 1 as [|x l Hx _ IH]; [reflexivity|].
  now rewrite filter_cons_False.
Qed.

Lemma site_tag_inj (a b : string) : ["site:" +:+ a] = ["site:" +:+ b] -> a = b.
Proof. intros H. injection H as H. exact H. Qed.

Lemma add_warnings_nil (w : World) : add_warnings [] w = w.
Proof. destruct w. unfold add_warnings. simpl. now rewrite app_nil_r. Qed.

Lemma add_warnings_app (a b : list string) (w : World) :
  add_warnings b (add_warnings a w) = add_warnings (a ++ b) w.
Proof. unfold add_warnings. simpl. now rewrite app_assoc. Qed.

Lemma add_checks_nil (w : World) : add_checks [] w = w.
Proof. destruct w. unfold add_checks. simpl. now rewrite app_nil_r. Qed.

Lemma add_checks_app (a b : list ServiceCheck) (w : World) :
  add_checks b (add_checks a w) = add_checks (a ++ b) w.
Proof. unfold add_checks. simpl. now rewrite app_assoc. Qed.

Lemma copy_or_empty_id (tags : list string) : copy_or_empty tags = tags.
Proof. now destruct tags. Qed.

(** ** [check] *)

(** The template of [instance_key] has three named fields and the call
    passes three positional arguments and no keyword: the first field,
    [host], is not found, whatever the arguments are. *)
Lemma instance_key_raises (args : list PyVal) :
  py_format "{host}:{namespace}:{class}" args [] = inl (KeyError (PyStr "host")).
Proof. reflexivity. Qed.

(** C10: whatever the instance and whatever the sampler adapter does,
    [check] raises before it submits anything: building [instance_key] looks
    up the named field [host] among keyword arguments that were passed
    positionally, which is a [KeyError]; the world is left as it was, so no
    metric and no service check is submitted and no run of [check] completes. *)
Theorem check_always_raises (WMISampler : Type)
    (_get_wmi_sampler :
       string -> string -> list string -> PyVal -> PyVal -> string -> PyVal -> PyVal ->
       M WMISampler)
    (sample : WMISampler -> M WMISampler) (objects : WMISampler -> list wmi_obj)
    (instance : Instance) (w : World) :
  check WMISampler _get_wmi_sampler sample objects instance w
  = (w, Raise (KeyError (PyStr "host"))).
Proof.
  unfold check. cbv zeta.
  rewrite instance_key_raises.
  unfold lift. apply bind_raise.
Qed.

(** Past that line the run would not get further than the call of
    [_extract_metrics], which has one argument too few: whatever the sampler
    adapter does, the rest of [check] raises, and the adapter is the only one
    to have touched the world. *)
Lemma sample_and_submit_raises (WMISampler : Type)
    (_get_wmi_sampler :
       string -> string -> list string -> PyVal -> PyVal -> string -> PyVal -> PyVal ->
       M WMISampler)
    (sample : WMISampler -> M WMISampler) (objects : WMISampler -> list wmi_obj)
    (host user password : PyVal) (instance_tags sites : list string)
    (instance_key : string) (w : World) :
  exists e : exn,
    sample_and_submit WMISampler _get_wmi_sampler sample objects
      host user password instance_tags sites instance_key w
    = (fst (bind (_get_wmi_sampler instance_key CLASS (map (fun x => snd x) METRICS)
                    PyNone host NAMESPACE user password) sample w),
       Raise e).
Proof.
  unfold sample_and_submit, bind.
  destruct (_get_wmi_sampler _ _ _ _ _ _ _ _ w) as [w1 [sampler|e1]]; [|now exists e1].
  destruct (sample sampler w1) as [w2 [sampler'|e2]]; [|now exists e2].
  now exists TypeError.
Qed.

(** ** [_submit_events] *)

(** A record named [_Total] is passed over: nothing is emitted for it and
    the loop variables stay as they are. *)
Lemma submit_event_total (s : option Status * gset string) (o : wmi_obj) (w : World) :
  assoc "Name" o = Some (PyStr "_Total") ->
  submit_event s o w = (w, Return s).
Proof.
  intros HName. destruct s as [status expected_sites].
  unfold submit_event, getitem. rewrite HName. reflexivity.
Qed.

(** A record of a site that is down and expected: one CRITICAL check tagged
    with the site, and the site leaves the working set. *)
Lemma submit_event_down (status : option Status) (expected_sites : gset string)
    (o : wmi_obj) (site : string) (w : World) :
  assoc "Name" o = Some (PyStr site) ->
  site <> "_Total" ->
  assoc "ServiceUptime" o = Some (PyInt 0) ->
  site ∈ expected_sites ->
  submit_event (status, expected_sites) o w
  = (add_checks [mkServiceCheck "iis.site_up" CRITICAL ["site:" +:+ site]] w,
     Return (Some CRITICAL, expected_sites ∖ {[site]})).
Proof.
  intros HName Hsite Hup Hin.
  unfold submit_event, getitem. rewrite HName. rewrite bind_ret.
  unfold py_eq_str. destruct (String.eqb_spec site "_Total") as [->|_]; [done|].
  rewrite Hup. rewrite bind_ret. simpl.
  unfold bind, set_remove. simpl. rewrite bool_decide_eq_true_2 by done.
  reflexivity.
Qed.

(** A record of a site that is up: the status is the one left by an earlier
    record, and with none left the read of [status] raises. *)
Lemma submit_event_up (status : option Status) (expected_sites : gset string)
    (o : wmi_obj) (sitename uptime : PyVal) (w : World) :
  assoc "Name" o = Some sitename ->
  py_eq_str sitename "_Total" = false ->
  assoc "ServiceUptime" o = Some uptime ->
  py_eq_zero uptime = false ->
  submit_event (status, expected_sites) o w
  = match status with
    | None => (w, Raise (UnboundLocalError "status"))
    | Some st =>
        bind (service_check "iis.site_up" st ["site:" +:+ py_str sitename])
          (fun _ => bind (set_remove sitename expected_sites)
                      (fun expected_sites' => ret (status, expected_sites'))) w
    end.
Proof.
  intros HName Hsite Hup Hnz.
  unfold submit_event, getitem. rewrite HName. rewrite bind_ret. rewrite Hsite.
  rewrite Hup. rewrite bind_ret. rewrite Hnz.
  destruct status as [st|]; reflexivity.
Qed.

(** What one turn of the loop can do: nothing to the world (the record is
    [_Total], or a lookup or the read of [status] raises), or one check
    tagged with the record's site, after which the site is taken out of the
    working set or, when it is not there, [KeyError] is raised. *)
Lemma submit_event_cases (status : option Status) (expected_sites : gset string)
    (o : wmi_obj) (w w' : World) (r : outcome (option Status * gset string)) :
  submit_event (status, expected_sites) o w = (w', r) ->
  (w' = w /\ (r = Return (status, expected_sites) \/ exists e, r = Raise e))
  \/ (exists (sitename : PyVal) (st : Status),
        assoc "Name" o = Some sitename
        /\ py_eq_str sitename "_Total" = false
        /\ (st = CRITICAL \/ status = Some st)
        /\ w' = add_checks [mkServiceCheck "iis.site_up" st ["site:" +:+ py_str sitename]] w
        /\ ((exists s, sitename = PyStr s /\ s ∈ expected_sites
                       /\ r = Return (Some st, expected_sites ∖ {[s]}))
            \/ r = Raise (KeyError sitename))).
Proof.
  unfold submit_event, getitem.
  destruct (assoc "Name" o) as [sitename|] eqn:HName.
  2:{ rewrite bind_raise. intros [= <- <-]. left. eauto. }
  rewrite bind_ret.
  destruct (py_eq_str sitename "_Total") eqn:Htotal.
  { intros [= <- <-]. left. eauto. }
  destruct (assoc "ServiceUptime" o) as [uptime|] eqn:Hup.
  2:{ rewrite bind_raise. intros [= <- <-]. left. eauto. }
  rewrite bind_ret.
  set (status1 := if py_eq_zero uptime
                  then Some (if py_eq_zero uptime then CRITICAL else OK) else status).
  assert (Hst : forall st, status1 = Some st -> st = CRITICAL \/ status = Some st).
  { intros st. unfold status1. destruct (py_eq_zero uptime).
    - intros [= <-]. now left.
    - now right. }
  destruct status1 as [st|].
  2:{ unfold read_status. rewrite bind_raise. intros [= <- <-]. left. eauto. }
  specialize (Hst st eq_refl).
  intros Hrun. right. exists sitename, st.
  split; [reflexivity|]. split; [exact Htotal|]. split; [exact Hst|].
  destruct sitename as [n|s|].
  - cbv [bind read_status ret service_check set_remove raise] in Hrun.
    injection Hrun as <- <-. split; [reflexivity|]. now right.
  - destruct (bool_decide (s ∈ expected_sites)) eqn:Hin;
      cbv [bind read_status ret service_check set_remove raise] in Hrun;
      rewrite Hin in Hrun; injection Hrun as <- <-; (split; [reflexivity|]).
    + apply bool_decide_eq_true_1 in Hin. left. eauto.
    + now right.
  - cbv [bind read_status ret service_check set_remove raise] in Hrun.
    injection Hrun as <- <-. split; [reflexivity|]. now right.
Qed.

(** The loop over what is left of the working set emits one CRITICAL check
    per site, in the order of the iteration. *)
Lemma submit_missing_run (l : list string) (w : World) :
  for_each submit_missing l tt w
  = (add_checks
       (map (fun site => mkServiceCheck "iis.site_up" CRITICAL ["site:" +:+ site]) l) w,
     Return tt).
Proof.
  revert w. induction l as [|site l IH]; intros w; simpl.
  - now rewrite add_checks_nil.
  - unfold bind. cbv [submit_missing service_check]. rewrite IH.
    f_equal. unfold add_checks. simpl. now rewrite <- app_assoc.
Qed.

(** The status of a check is read from a variable that is only ever assigned
    CRITICAL: no run of the loop emits OK. *)
Lemma events_loop_critical (wmi_sampler : list wmi_obj) :
  forall (status : option Status) (expected_sites : gset string) (w w' : World)
         (r : outcome (option Status * gset string)),
    status <> Some OK ->
    for_each submit_event wmi_sampler (status, expected_sites) w = (w', r) ->
    exists cs, w' = add_checks cs w
               /\ Forall (fun c => sc_check c = "iis.site_up" /\ sc_status c = CRITICAL) cs.
Proof.
  induction wmi_sampler as [|o rest IH]; intros status E w w' r Hstatus Hrun.
  - injection Hrun as <- <-. exists []. split; [now rewrite add_checks_nil | constructor].
  - rewrite for_each_cons in Hrun. unfold bind in Hrun.
    destruct (submit_event (status, E) o w) as [w1 r1] eqn:Hstep.
    apply submit_event_cases in Hstep
      as [[-> [-> | [e ->]]] | (sitename & st & _ & _ & Hst & -> & Hr)].
    + exact (IH _ _ _ _ _ Hstatus Hrun).
    + injection Hrun as <- <-. exists []. split; [now rewrite add_checks_nil | constructor].
    + assert (st = CRITICAL) as ->.
      { destruct Hst as [-> | ->]; [reflexivity|]. destruct st; congruence. }
      destruct Hr as [(s & -> & _ & ->) | ->].
      * apply IH in Hrun as (cs & -> & Hcs); [|congruence].
        eexists (_ :: cs). rewrite add_checks_app. split; [reflexivity|].
        constructor; [now split | exact Hcs].
      * injection Hrun as <- <-. eexists [_]. split; [reflexivity|].
        constructor; [now split | constructor].
Qed.

Lemma submit_events_only_critical (wmi_sampler : list wmi_obj) (sites : list string)
    (w w' : World) (r : outcome unit) :
  _submit_events wmi_sampler sites w = (w', r) ->
  exists cs, w' = add_checks cs w
             /\ Forall (fun c => sc_check c = "iis.site_up" /\ sc_status c = CRITICAL) cs.
Proof.
  unfold _submit_events, bind.
  destruct (for_each submit_event wmi_sampler (None, list_to_set sites) w)
    as [w1 r1] eqn:Hloop.
  apply events_loop_critical in Hloop as (cs & -> & Hcs); [|congruence].
  destruct r1 as [[status E]|e].
  - rewrite submit_missing_run, add_checks_app. intros [= <- <-].
    eexists. split; [reflexivity|]. apply Forall_app. split; [exact Hcs|].
    apply Forall_forall. intros c Hc.
    apply list_elem_of_In, in_map_iff in Hc as (site & <- & _). now split.
  - intros [= <- <-]. eauto.
Qed.

(** When the loop over the records runs to its end, every check it emitted
    is tagged with the name of a record, the working set has only lost
    sites, and a site that no record is named after is still in it. *)
Lemma events_loop_return (wmi_sampler : list wmi_obj) :
  forall (status status' : option Status) (expected_sites expected_sites' : gset string)
         (w w' : World),
    for_each submit_event wmi_sampler (status, expected_sites) w
    = (w', Return (status', expected_sites')) ->
    exists cs,
      w' = add_checks cs w
      /\ Forall (fun c => exists o s, o ∈ wmi_sampler /\ assoc "Name" o = Some (PyStr s)
                                      /\ sc_tags c = ["site:" +:+ s]) cs
      /\ (forall site, site ∈ expected_sites ->
            (forall o, o ∈ wmi_sampler -> assoc "Name" o <> Some (PyStr site)) ->
            site ∈ expected_sites').
Proof.
  induction wmi_sampler as [|o rest IH]; intros status status' E E' w w' Hrun.
  - injection Hrun as <- <- <-. exists [].
    split; [now rewrite add_checks_nil|]. split; [constructor | auto].
  - rewrite for_each_cons in Hrun. unfold bind in Hrun.
    destruct (submit_event (status, E) o w) as [w1 r1] eqn:Hstep.
    apply submit_event_cases in Hstep
      as [[-> [-> | [e ->]]] | (sitename & st & HName & _ & _ & -> & Hr)].
    + apply IH in Hrun as (cs & -> & Hcs & Hleft). exists cs.
      split; [reflexivity|]. split.
      * eapply Forall_impl; [exact Hcs|]. intros c (o' & s & Ho' & Hrest).
        exists o', s. split; [now right | exact Hrest].
      * intros site Hin Hno. apply Hleft; [exact Hin|].
        intros o' Ho'. apply Hno. now right.
    + discriminate.
    + destruct Hr as [(s & -> & _ & ->) | ->]; [|discriminate].
      apply IH in Hrun as (cs & -> & Hcs & Hleft).
      eexists (_ :: cs). rewrite add_checks_app. split; [reflexivity|]. split.
      * constructor.
        -- exists o, s. split; [now left | now split].
        -- eapply Forall_impl; [exact Hcs|]. intros c (o' & s' & Ho' & Hrest).
           exists o', s'. split; [now right | exact Hrest].
      * intros site Hin Hno. apply Hleft.
        -- apply elem_of_difference. split; [exact Hin|].
           intros ->%elem_of_singleton. apply (Hno o); [now left | exact HName].
        -- intros o' Ho'. apply Hno. now right.
Qed.

(** When the loop over the records runs to its end, a site of [sites] that
    no record is named after gets one check tagged with it, and that one is
    CRITICAL. *)
Lemma missing_site_reported_once (wmi_sampler : list wmi_obj) (sites : list string)
    (site : string) (w w1 : World) (s : option Status * gset string) :
  for_each submit_event wmi_sampler (None, list_to_set sites) w = (w1, Return s) ->
  site ∈ sites ->
  (forall o, o ∈ wmi_sampler -> assoc "Name" o <> Some (PyStr site)) ->
  exists cs,
    _submit_events wmi_sampler sites w = (add_checks cs w, Return tt)
    /\ filter (fun c => sc_tags c = ["site:" +:+ site]) cs
       = [mkServiceCheck "iis.site_up" CRITICAL ["site:" +:+ site]].
Proof.
  intros Hloop Hsite Hno. destruct s as [status E].
  pose proof Hloop as Hret.
  apply events_loop_return in Hret as (cs & -> & Hcs & Hleft).
  eexists. split.
  - unfold _submit_events. erewrite bind_run by exact Hloop.
    rewrite submit_missing_run, add_checks_app. reflexivity.
  - rewrite filter_app.
    assert (Hnone : filter (fun c => sc_tags c = ["site:" +:+ site]) cs = []).
    { apply filter_none. eapply Forall_impl; [exact Hcs|].
      intros c (o & s & Ho & HName & Htag) Heq. rewrite Htag in Heq.
      apply site_tag_inj in Heq as ->. now apply (Hno o). }
    rewrite Hnone. simpl.
    assert (Hin : site ∈ elements E).
    { apply elem_of_elements, Hleft; [|exact Hno]. now apply elem_of_list_to_set. }
    pose proof (NoDup_elements E) as Hnd.
    induction (elements E) as [|x l IHl]; [now apply elem_of_nil in Hin|].
    apply NoDup_cons in Hnd as [Hx Hnd]. simpl.
    destruct (decide (x = site)) as [->|Hne].
    + rewrite filter_cons_True by reflexivity. f_equal.
      apply filter_none, Forall_forall. intros c Hc Heq.
      apply list_elem_of_In, in_map_iff in Hc as (y & <- & Hy).
      apply site_tag_inj in Heq as ->. now apply Hx, list_elem_of_In.
    + rewrite filter_cons_False.
      * apply IHl; [|exact Hnd]. apply elem_of_cons in Hin as [->|Hin]; [done | exact Hin].
      * simpl. intros Heq. apply site_tag_inj in Heq. done.
Qed.

(** C1: a record with a nonzero [ServiceUptime] never gets an OK check.  When
    it is the first record after [_Total], [status] is still unbound and the
    method raises without emitting anything; when it follows a record of a
    site that is down, it is reported CRITICAL, the status left by that
    record. *)
Theorem nonzero_uptime_is_not_reported_ok :
  _submit_events [total_obj; site1_up] ["site1"] empty_world
  = (empty_world, Raise (UnboundLocalError "status"))
  /\ _submit_events [site1_down; site2_up] ["site1"; "site2"] empty_world
     = (add_checks [mkServiceCheck "iis.site_up" CRITICAL ["site:site1"];
                    mkServiceCheck "iis.site_up" CRITICAL ["site:site2"]] empty_world,
        Return tt).
Proof. split; vm_compute; reflexivity. Qed.

(** C5: a sampled site that was not asked for is not in the working set, and
    taking it out raises [KeyError] right after its check was emitted: the
    records that follow are not looked at, and the site that was asked for
    and is missing is not reported. *)
Theorem unrequested_site_raises :
  _submit_events [site1_down; site2_up] ["site3"] empty_world
  = (add_checks [mkServiceCheck "iis.site_up" CRITICAL ["site:site1"]] empty_world,
     Raise (KeyError (PyStr "site1"))).
Proof. vm_compute; reflexivity. Qed.

(** C6: with the default [sites], [_Total] is in the working set and no
    record takes it out, so it is reported CRITICAL as a missing site, even
    though the sample has a [_Total] record. *)
Theorem total_is_reported_missing :
  _submit_events [total_obj] ["_Total"] empty_world
  = (add_checks [mkServiceCheck "iis.site_up" CRITICAL ["site:_Total"]] empty_world,
     Return tt).
Proof. vm_compute; reflexivity. Qed.

(** C7: [site2] is asked for and no record is named after it, but the loop
    over the records raises on [site1], which is up, and the loop that
    reports the missing sites is never reached: nothing is emitted for
    [site2]. *)
Theorem missing_site_is_not_reported :
  _submit_events [site1_up] ["site1"; "site2"] empty_world
  = (empty_world, Raise (UnboundLocalError "status")).
Proof. vm_compute; reflexivity. Qed.

(** ** [_extract_metrics] *)

Section ExtractionFacts.

Variable float_of_str : string -> option float64.

(** [float] raises nothing but these three. *)
Lemma py_float_raises (raw : PyVal) (e : exn) :
  py_float float_of_str raw = inl e ->
  e = ValueError \/ e = TypeError \/ e = OverflowError.
Proof.
  destruct raw as [n|s|]; simpl.
  - unfold float_of_int. destruct (PrimFloat.is_infinity _); [|discriminate].
    intros [= <-]. auto.
  - destruct (float_of_str s); [discriminate|]. intros [= <-]. auto.
  - intros [= <-]. auto.
Qed.

(** One turn of the loop over the properties. *)
Lemma extract_property_run (sitename : string) (tags : list string)
    (metrics : list WMIMetric) (property : string) (raw : PyVal) (w : World) :
  extract_property float_of_str sitename tags metrics (property, raw) w
  = match py_float float_of_str raw with
    | inr x => (w, Return (metrics ++ [mkWMIMetric property x (tags ++ [sitename])]))
    | inl ValueError => (add_warnings [non_digit_warning property] w, Return metrics)
    | inl TypeError => (add_warnings [missing_warning property] w, Return metrics)
    | inl e => (w, Raise e)
    end.
Proof.
  unfold extract_property, try_except, bind.
  destruct (py_float float_of_str raw) as [[]|x]; reflexivity.
Qed.

Lemma metrics_of_items_values (sitename : string) (tags : list string)
    (items : list (string * PyVal)) :
  map (fun m => (name m, value m)) (metrics_of_items float_of_str sitename tags items)
  = flat_map (fun item => fst (coerce_property float_of_str item)) items.
Proof.
  unfold metrics_of_items. induction items as [|item items IH]; [reflexivity|].
  simpl. rewrite map_app, IH. f_equal.
  rewrite map_map. simpl. clear IH.
  induction (fst (coerce_property float_of_str item)) as [|[n v] l IHl]; [reflexivity|].
  simpl. now rewrite IHl.
Qed.

(** The loop over the properties of a record, when no integer is too large
    for a double: every property adds what [coerce_property] says. *)
Lemma extract_properties_run (sitename : string) (tags : list string)
    (items : list (string * PyVal)) :
  Forall (fun item => py_float float_of_str (snd item) <> inl OverflowError) items ->
  forall (metrics : list WMIMetric) (w : World),
    for_each (extract_property float_of_str sitename tags) items metrics w
    = (add_warnings (flat_map (fun item => snd (coerce_property float_of_str item)) items) w,
       Return (metrics ++ metrics_of_items float_of_str sitename tags items)).
Proof.
  induction 1 as [|[property raw] items Hitem _ IH]; intros metrics w.
  - simpl. now rewrite add_warnings_nil, app_nil_r.
  - rewrite for_each_cons. unfold bind. rewrite extract_property_run.
    unfold metrics_of_items, coerce_property. simpl in *.
    destruct (py_float float_of_str raw) as [e|x] eqn:Hraw.
    + apply py_float_raises in Hraw as [-> | [-> | ->]]; [| |done];
        rewrite IH; simpl; now rewrite add_warnings_app.
    + rewrite IH. simpl. now rewrite <- app_assoc.
Qed.

(** A record that is not asked for leaves the loop variables and the world
    as they are. *)
Lemma extract_object_skip (sites : list string) (o : wmi_obj) (sitename : PyVal)
    (tags : list string) (metrics : list WMIMetric) (w : World) :
  assoc "Name" o = Some sitename ->
  py_in sitename sites = false ->
  extract_object float_of_str sites (tags, metrics) o w = (w, Return (tags, metrics)).
Proof.
  intros HName Hout. unfold extract_object, getitem.
  rewrite HName, bind_ret, Hout, copy_or_empty_id. reflexivity.
Qed.

(** A record that is asked for: its name joins [tags] unless it is [_Total],
    and its properties are gone through with those tags. *)
Lemma extract_object_run (sites : list string) (o : wmi_obj) (sitename : PyVal)
    (tags : list string) (metrics : list WMIMetric) (w : World) :
  assoc "Name" o = Some sitename ->
  py_in sitename sites = true ->
  Forall (fun item => py_float float_of_str (snd item) <> inl OverflowError) o ->
  extract_object float_of_str sites (tags, metrics) o w
  = let tags' :=
      if negb (py_eq_str sitename "_Total") then tags ++ [py_str sitename] else tags in
    (add_warnings (flat_map (fun item => snd (coerce_property float_of_str item)) o) w,
     Return (tags', metrics ++ metrics_of_items float_of_str (py_str sitename) tags' o)).
Proof.
  intros HName Hin Hitems. unfold extract_object, getitem.
  rewrite HName, bind_ret, Hin, copy_or_empty_id.
  change (negb true) with false. cbv iota zeta.
  unfold iteritems. erewrite bind_run by (apply extract_properties_run; exact Hitems).
  reflexivity.
Qed.

(** The loop over the records, when every record has a [Name] and no integer
    is too large for a double. *)
Lemma extract_objects_run (sites : list string) (wmi_sampler : list wmi_obj) :
  Forall (fun o => is_Some (assoc "Name" o)) wmi_sampler ->
  Forall (fun o => Forall (fun item => py_float float_of_str (snd item) <> inl OverflowError) o)
    wmi_sampler ->
  forall (tags : list string) (metrics : list WMIMetric) (w : World),
  exists new : list WMIMetric,
    for_each (extract_object float_of_str sites) wmi_sampler (tags, metrics) w
    = (add_warnings (flat_map (coercion_warnings float_of_str sites) wmi_sampler) w,
       Return (tags_after sites wmi_sampler tags, metrics ++ new))
    /\ map (fun m => (name m, value m)) new
       = flat_map (coerced_values float_of_str sites) wmi_sampler.
Proof.
  induction wmi_sampler as [|o rest IH]; intros HNames Hitems tags metrics w.
  - exists []. simpl. now rewrite add_warnings_nil, app_nil_r.
  - apply Forall_cons in HNames as [[sitename HName] HNames].
    apply Forall_cons in Hitems as [Ho Hitems].
    rewrite for_each_cons. simpl tags_after. simpl flat_map.
    unfold coercion_warnings at 1, coerced_values at 1, requested. rewrite HName.
    destruct (py_in sitename sites) eqn:Hin.
    + erewrite bind_run by (apply extract_object_run; eassumption). cbv zeta.
      simpl andb.
      set (tags' := if negb (py_eq_str sitename "_Total")
                    then tags ++ [py_str sitename] else tags).
      destruct (IH HNames Hitems tags'
                  (metrics ++ metrics_of_items float_of_str (py_str sitename) tags' o)
                  (add_warnings
                     (flat_map (fun item => snd (coerce_property float_of_str item)) o) w))
        as (new & Hrun & Hvalues).
      exists (metrics_of_items float_of_str (py_str sitename) tags' o ++ new).
      split.
      * rewrite Hrun, add_warnings_app, <- app_assoc. f_equal. f_equal. f_equal.
        unfold tags'. now destruct (negb (py_eq_str sitename "_Total")).
      * now rewrite map_app, metrics_of_items_values, Hvalues.
    + erewrite bind_run by (eapply extract_object_skip; eassumption).
      simpl andb. cbv iota. simpl app. apply IH; assumption.
Qed.

End ExtractionFacts.

(** C8: a record whose [Name] is not in the site filter is skipped as a
    whole: its turn of the loop leaves the metrics, the tags and the world as
    they are, and the extraction gives what it gives on the sample without
    the record. *)
Theorem unrequested_record_is_skipped (float_of_str : string -> option float64)
    (sites : list string) (o : wmi_obj) (sitename : PyVal) :
  assoc "Name" o = Some sitename ->
  py_in sitename sites = false ->
  (forall (tags : list string) (metrics : list WMIMetric) (w : World),
      extract_object float_of_str sites (tags, metrics) o w = (w, Return (tags, metrics)))
  /\ (forall (before after : list wmi_obj) (tags : list string) (w : World),
        _extract_metrics float_of_str (before ++ o :: after) sites tags w
        = _extract_metrics float_of_str (before ++ after) sites tags w).
Proof.
  intros HName Hout. split.
  - intros tags metrics w. now apply extract_object_skip with (sitename := sitename).
  - intros before after tags w. unfold _extract_metrics, bind.
    rewrite !for_each_app. unfold bind.
    destruct (for_each (extract_object float_of_str sites) before (tags, []) w)
      as [w1 [[tags1 metrics1]|e]]; [|reflexivity].
    rewrite for_each_cons.
    erewrite bind_run by (eapply extract_object_skip; eassumption).
    reflexivity.
Qed.

Lemma unrequested_record_is_skipped_witness :
  assoc "Name" site2_up = Some (PyStr "site2")
  /\ py_in (PyStr "site2") ["_Total"; "site1"] = false
  /\ (forall (tags : list string) (metrics : list WMIMetric) (w : World),
        extract_object float_of_literal ["_Total"; "site1"] (tags, metrics) site2_up w
        = (w, Return (tags, metrics)))
  /\ (forall (before after : list wmi_obj) (tags : list string) (w : World),
        _extract_metrics float_of_literal (before ++ site2_up :: after)
          ["_Total"; "site1"] tags w
        = _extract_metrics float_of_literal (before ++ after) ["_Total"; "site1"] tags w).
Proof.
  split; [reflexivity|]. split; [reflexivity|].
  apply (unrequested_record_is_skipped float_of_literal ["_Total"; "site1"] site2_up
           (PyStr "site2")); reflexivity.
Defined.

(** C9: in a sample where every record has a [Name] and no integer is too
    large for a double, the extraction returns, and what it returns and logs
    is, record by record and property by property of the records that pass
    the filter, what [coerce_property] says: a raw value that is not a number
    or is missing gives no metric and one warning that names the property,
    and the turn of the other properties and records is not affected; a raw
    value that [float] coerces gives one metric with the property as its name
    and the float as its value, and no warning. *)
Theorem extraction_coerces_each_property (float_of_str : string -> option float64)
    (wmi_sampler : list wmi_obj) (sites tags : list string) (w : World) :
  Forall (fun o => is_Some (assoc "Name" o)) wmi_sampler ->
  Forall (fun o => Forall (fun item => py_float float_of_str (snd item) <> inl OverflowError) o)
    wmi_sampler ->
  exists metrics : list WMIMetric,
    _extract_metrics float_of_str wmi_sampler sites tags w
    = (add_warnings (flat_map (coercion_warnings float_of_str sites) wmi_sampler) w,
       Return metrics)
    /\ map (fun m => (name m, value m)) metrics
       = flat_map (coerced_values float_of_str sites) wmi_sampler.
Proof.
  intros HNames Hitems.
  destruct (extract_objects_run float_of_str sites wmi_sampler HNames Hitems tags [] w)
    as (new & Hrun & Hvalues).
  exists new. split; [|exact Hvalues].
  unfold _extract_metrics. erewrite bind_run by exact Hrun. reflexivity.
Qed.

Lemma extraction_coerces_each_property_witness :
  Forall (fun o => is_Some (assoc "Name" o)) [total_obj; site1_down; site2_up]
  /\ Forall (fun o => Forall (fun item => py_float float_of_literal (snd item)
                                           <> inl OverflowError) o)
       [total_obj; site1_down; site2_up]
  /\ exists metrics : list WMIMetric,
       _extract_metrics float_of_literal [total_obj; site1_down; site2_up]
         ["_Total"; "site1"; "site2"] ["env:prod"] empty_world
       = (add_warnings
            (flat_map (coercion_warnings float_of_literal ["_Total"; "site1"; "site2"])
               [total_obj; site1_down; site2_up])
            empty_world,
          Return metrics)
       /\ map (fun m => (name m, value m)) metrics
          = flat_map (coerced_values float_of_literal ["_Total"; "site1"; "site2"])
              [total_obj; site1_down; site2_up].
Proof.
  assert (HNames : Forall (fun o => is_Some (assoc "Name" o))
                     [total_obj; site1_down; site2_up]).
  { repeat constructor; eexists; reflexivity. }
  assert (Hitems : Forall (fun o => Forall (fun item => py_float float_of_literal (snd item)
                                                         <> inl OverflowError) o)
                     [total_obj; site1_down; site2_up]).
  { repeat constructor; vm_compute; discriminate. }
  split; [exact HNames|]. split; [exact Hitems|].
  exact (extraction_coerces_each_property float_of_literal
           [total_obj; site1_down; site2_up] ["_Total"; "site1"; "site2"] ["env:prod"]
           empty_world HNames Hitems).
Defined.

(** C2: the copy that starts a record's tags is a copy of the variable
    [tags] itself, which the record before has assigned: with the base tag
    [env:prod] and the records of [site1] and [site2], the metric of [site2]
    carries the tag [site1]. *)
Theorem tags_leak_into_next_record :
  _extract_metrics float_of_literal [site1_up; site2_up] ["site1"; "site2"] ["env:prod"]
    empty_world
  = (add_warnings [non_digit_warning "Name"; non_digit_warning "Name";
                   missing_warning "CurrentConnections"] empty_world,
     Return [mkWMIMetric "ServiceUptime" 5%float ["env:prod"; "site1"; "site1"];
             mkWMIMetric "ServiceUptime" 7%float ["env:prod"; "site1"; "site2"; "site2"]]).
Proof. vm_compute; reflexivity. Qed.

(** ** [_submit_metrics] *)

Lemma add_submissions_nil (w : World) : add_submissions [] w = w.
Proof. destruct w. unfold add_submissions. simpl. now rewrite app_nil_r. Qed.

Lemma add_submissions_app (a b : list Submission) (w : World) :
  add_submissions b (add_submissions a w) = add_submissions (a ++ b) w.
Proof. unfold add_submissions. simpl. now rewrite app_assoc. Qed.

(** A metric whose name is not one of the two aliases: it is dropped without
    a word when the catalogue has no entry for it, and submitted under the
    name and by the method of its entry otherwise. *)
Lemma submit_metric_plain (metrics_by_property : gmap string (string * string))
    (m : WMIMetric) (w : World) :
  is_alias (name m) = false ->
  submit_metric metrics_by_property tt m w
  = match metrics_by_property !! name m with
    | None => (w, Return tt)
    | Some (metric, mtype) =>
        if String.eqb mtype "gauge" || String.eqb mtype "rate"
        then (add_submissions [mkSubmission mtype metric (value m) (tags m)] w, Return tt)
        else (w, Raise AttributeError)
    end.
Proof.
  unfold is_alias. intros [H1 H2]%orb_false_iff.
  unfold submit_metric. rewrite H1, H2.
  destruct (metrics_by_property !! name m) as [[metric mtype]|] eqn:Hentry.
  - rewrite bool_decide_eq_true_2 by (apply elem_of_dom; eauto).
    change (negb true) with false. cbv iota. rewrite bind_ret.
    unfold lookup_metric. rewrite Hentry, bind_ret.
    unfold getattr.
    destruct (String.eqb_spec mtype "gauge") as [->|_]; [reflexivity|].
    destruct (String.eqb_spec mtype "rate") as [->|_]; reflexivity.
  - rewrite bool_decide_eq_false_2; [reflexivity|].
    rewrite elem_of_dom, Hentry. now intros [? ?].
Qed.

(** With no alias among the names and a catalogue whose methods are [gauge]
    and [rate], the dispatcher submits every metric that has an entry, in
    the order of the extraction. *)
Lemma submit_metrics_plain (wmi_metrics : list WMIMetric)
    (metrics_by_property : gmap string (string * string)) (w : World) :
  Forall (fun m => is_alias (name m) = false) wmi_metrics ->
  map_Forall (fun _ entry => snd entry = "gauge" \/ snd entry = "rate") metrics_by_property ->
  _submit_metrics wmi_metrics metrics_by_property w
  = (add_submissions (flat_map (dispatch metrics_by_property) wmi_metrics) w, Return tt).
Proof.
  intros Hplain Hkinds. unfold _submit_metrics. revert w.
  induction Hplain as [|m ms Hm _ IH]; intros w.
  - simpl. now rewrite add_submissions_nil.
  - rewrite for_each_cons. unfold bind. rewrite submit_metric_plain by exact Hm.
    simpl flat_map. unfold dispatch at 1.
    destruct (metrics_by_property !! name m) as [[metric mtype]|] eqn:Hentry.
    + apply Hkinds in Hentry. simpl in Hentry.
      destruct Hentry as [-> | ->]; simpl; now rewrite IH, add_submissions_app.
    + apply IH.
Qed.

(** The name that the second correction would assign is not a key of the
    catalogue, whose key has a capital I. *)
Lemma corrected_name_is_not_in_catalog :
  catalog !! "TotalConnectionAttemptsAllinstances" = None
  /\ catalog !! "TotalConnectionAttemptsAllInstances"
     = Some ("iis.net.connection_attempts", "rate").
Proof. split; vm_compute; reflexivity. Qed.

(** C3: a metric named by one of the two aliases is not submitted under the
    corrected name: the correction assigns to the field [name] of a named
    tuple, which raises [AttributeError], whatever the value, the tags, the
    catalogue and the metrics that follow. *)
Theorem alias_is_not_corrected (x : float64) (t : list string) (rest : list WMIMetric)
    (metrics_by_property : gmap string (string * string)) (w : World) :
  _submit_metrics (mkWMIMetric "TotalBytesTransfered" x t :: rest) metrics_by_property w
  = (w, Raise AttributeError)
  /\ _submit_metrics (mkWMIMetric "TotalConnectionAttemptsallinstances" x t :: rest)
       metrics_by_property w
     = (w, Raise AttributeError).
Proof. split; reflexivity. Qed.

(** C4: a metric whose corrected name has an entry in the catalogue is not
    dispatched, and neither is the metric after it, which has an entry under
    its own name: the run raises on the first and submits nothing. *)
Theorem alias_stops_the_dispatch :
  _submit_metrics [mkWMIMetric "TotalBytesTransfered" 1%float ["env:prod"];
                   mkWMIMetric "ServiceUptime" 500%float ["env:prod"]] catalog empty_world
  = (empty_world, Raise AttributeError).
Proof. vm_compute; reflexivity. Qed.

(** * Further properties of the methods *)

(** ** [_get_wmi_conn] *)

Section ConnectionFacts.

Variable Conn E Ext : Type.
Variable WMI : PyVal -> PyVal -> PyVal -> Ext -> Ext * (E + Conn).

(** A call whose key is in the dictionary returns the connection stored
    there and touches neither the dictionary nor the outside. *)
Lemma get_wmi_conn_hit (host user password : PyVal) (wmi_conns : gmap string Conn)
    (ext : Ext) (conn : Conn) :
  wmi_conns !! conn_key host user password = Some conn ->
  _get_wmi_conn Conn E Ext WMI host user password wmi_conns ext
  = (wmi_conns, ext, inr conn).
Proof.
  intros Hkey. unfold _get_wmi_conn.
  rewrite bool_decide_eq_true_2 by (apply elem_of_dom; eauto).
  simpl. now rewrite Hkey.
Qed.

(** A call that returns a connection leaves it in the dictionary under its
    key. *)
Lemma get_wmi_conn_stores (host user password : PyVal) (wmi_conns wmi_conns' : gmap string Conn)
    (ext ext' : Ext) (conn : Conn) :
  _get_wmi_conn Conn E Ext WMI host user password wmi_conns ext
  = (wmi_conns', ext', inr conn) ->
  wmi_conns' !! conn_key host user password = Some conn.
Proof.
  unfold _get_wmi_conn.
  destruct (bool_decide (conn_key host user password ∈ dom wmi_conns)) eqn:Hin; simpl.
  - destruct (wmi_conns !! conn_key host user password) as [c|] eqn:Hkey;
      intros [= <- <- <-]; exact Hkey.
  - destruct (WMI host user password ext) as [ext1 [e|c]]; [discriminate|].
    rewrite lookup_insert_eq. intros [= <- <- <-]. apply lookup_insert_eq.
Qed.

End ConnectionFacts.

(** X1: the connections are cached by the string [host:user:password] and by
    nothing else: once a call has returned a connection, every call whose
    arguments give the same string returns that connection, without opening
    one and without touching the dictionary, also when the arguments are
    not the same. *)
Theorem get_wmi_conn_reuses_by_key (Conn E Ext : Type)
    (WMI : PyVal -> PyVal -> PyVal -> Ext -> Ext * (E + Conn))
    (host user password host' user' password' : PyVal)
    (wmi_conns wmi_conns1 : gmap string Conn) (ext ext1 : Ext) (conn : Conn) :
  conn_key host user password = conn_key host' user' password' ->
  _get_wmi_conn Conn E Ext WMI host user password wmi_conns ext
  = (wmi_conns1, ext1, inr conn) ->
  _get_wmi_conn Conn E Ext WMI host' user' password' wmi_conns1 ext1
  = (wmi_conns1, ext1, inr conn).
Proof.
  intros Hkey Hfirst. apply get_wmi_conn_hit. rewrite <- Hkey.
  eapply get_wmi_conn_stores. exact Hfirst.
Qed.

Lemma get_wmi_conn_reuses_by_key_witness :
  conn_key (PyStr "web:admin") (PyStr "x") (PyStr "secret")
  = conn_key (PyStr "web") (PyStr "admin:x") (PyStr "secret")
  /\ _get_wmi_conn _ _ _ open_connection (PyStr "web:admin") (PyStr "x") (PyStr "secret")
       (__init__ _) 0%nat
     = ({["web:admin:x:secret" := (PyStr "web:admin", PyStr "x", PyStr "secret")]}, 1%nat,
        inr (PyStr "web:admin", PyStr "x", PyStr "secret"))
  /\ _get_wmi_conn _ _ _ open_connection (PyStr "web") (PyStr "admin:x") (PyStr "secret")
       {["web:admin:x:secret" := (PyStr "web:admin", PyStr "x", PyStr "secret")]} 1%nat
     = ({["web:admin:x:secret" := (PyStr "web:admin", PyStr "x", PyStr "secret")]}, 1%nat,
        inr (PyStr "web:admin", PyStr "x", PyStr "secret")).
Proof.
  assert (Hkey : conn_key (PyStr "web:admin") (PyStr "x") (PyStr "secret")
                 = conn_key (PyStr "web") (PyStr "admin:x") (PyStr "secret"))
    by reflexivity.
  assert (Hfirst : _get_wmi_conn _ _ _ open_connection (PyStr "web:admin") (PyStr "x")
                     (PyStr "secret") (__init__ _) 0%nat
                   = ({["web:admin:x:secret"
                          := (PyStr "web:admin", PyStr "x", PyStr "secret")]}, 1%nat,
                      inr (PyStr "web:admin", PyStr "x", PyStr "secret")))
    by (vm_compute; reflexivity).
  split; [exact Hkey|]. split; [exact Hfirst|].
  exact (get_wmi_conn_reuses_by_key _ _ _ open_connection _ _ _ _ _ _ _ _ _ _ _
           Hkey Hfirst).
Defined.

(** X2: a call never removes or replaces an entry of the dictionary and
    never raises on its own.  When it returns a connection, that connection
    is the entry of its key and no other entry has changed; when [wmi.WMI]
    raises, the dictionary is as it was, without an entry for the key, so
    that the next call tries again. *)
Theorem get_wmi_conn_keeps_cache (Conn E Ext : Type)
    (WMI : PyVal -> PyVal -> PyVal -> Ext -> Ext * (E + Conn))
    (host user password : PyVal) (wmi_conns : gmap string Conn) (ext : Ext) :
  let '(wmi_conns', _, result) :=
    _get_wmi_conn Conn E Ext WMI host user password wmi_conns ext in
  (forall key conn, wmi_conns !! key = Some conn -> wmi_conns' !! key = Some conn)
  /\ match result with
     | inr conn =>
         wmi_conns' !! conn_key host user password = Some conn
         /\ forall key, key <> conn_key host user password ->
                        wmi_conns' !! key = wmi_conns !! key
     | inl (inr _) => wmi_conns' = wmi_conns /\ wmi_conns !! conn_key host user password = None
     | inl (inl _) => False
     end.
Proof.
  unfold _get_wmi_conn.
  destruct (bool_decide (conn_key host user password ∈ dom wmi_conns)) eqn:Hin; simpl.
  - apply bool_decide_eq_true_1, elem_of_dom in Hin as [conn Hkey].
    rewrite Hkey. split; [auto|]. split; [exact Hkey | auto].
  - apply bool_decide_eq_false_1 in Hin. rewrite elem_of_dom, <- eq_None_not_Some in Hin.
    destruct (WMI host user password ext) as [ext1 [e|conn]].
    + split; [auto|]. split; [reflexivity | exact Hin].
    + rewrite lookup_insert_eq. split.
      * intros key c Hc. rewrite lookup_insert_ne; [exact Hc|]. congruence.
      * split; [apply lookup_insert_eq|]. intros key Hne. now apply lookup_insert_ne.
Qed.

(** ** [metrics_by_property] *)

(** A row that comes later in the table replaces the entry of an earlier row
    with the same property; a property that is in no row keeps the entry it
    had. *)
Lemma metrics_by_property_fold_other (table : list (string * string * string))
    (acc : gmap string (string * string)) (prop : string) :
  prop ∉ map snd table ->
  fold_left (fun acc '(metric, metric_type, prop) => <[prop := (metric, metric_type)]> acc)
    table acc !! prop
  = acc !! prop.
Proof.
  revert acc. induction table as [|[[metric mtype] prop'] table IH]; intros acc Hnot.
  - reflexivity.
  - simpl in *. apply not_elem_of_cons in Hnot as [Hne Hnot].
    rewrite IH by exact Hnot. now apply lookup_insert_ne.
Qed.

Lemma metrics_by_property_fold_in (table : list (string * string * string))
    (acc : gmap string (string * string)) (prop : string) (entry : string * string) :
  fold_left (fun acc '(metric, metric_type, prop) => <[prop := (metric, metric_type)]> acc)
    table acc !! prop
  = Some entry ->
  (fst entry, snd entry, prop) ∈ table \/ acc !! prop = Some entry.
Proof.
  revert acc. induction table as [|[[metric mtype] prop'] table IH]; intros acc Hlook.
  - now right.
  - simpl in Hlook. apply IH in Hlook as [Hin | Hacc].
    + left. now right.
    + destruct (decide (prop' = prop)) as [->|Hne].
      * rewrite lookup_insert_eq in Hacc. injection Hacc as <-. left. now left.
      * rewrite lookup_insert_ne in Hacc by exact Hne. now right.
Qed.

(** X3: when no two rows of the table have the same property, the
    dictionary that [check] builds maps a property to a metric and a
    submission method exactly when the table has that row; the rows of
    [METRICS] are such a table. *)
Theorem metrics_by_property_lookup (table : list (string * string * string)) :
  NoDup (map snd table) ->
  forall metric mtype prop : string,
    (metric, mtype, prop) ∈ table
    <-> metrics_by_property_of table !! prop = Some (metric, mtype).
Proof.
  intros Hnd metric mtype prop. unfold metrics_by_property_of. split.
  - generalize (∅ : gmap string (string * string)) as acc.
    induction table as [|[[metric' mtype'] prop'] table IH]; intros acc Hin.
    + now apply elem_of_nil in Hin.
    + simpl in Hnd. apply NoDup_cons in Hnd as [Hfresh Hnd]. simpl.
      apply elem_of_cons in Hin as [[= -> -> ->] | Hin].
      * rewrite metrics_by_property_fold_other by exact Hfresh. apply lookup_insert_eq.
      * now apply IH.
  - intros Hlook. apply metrics_by_property_fold_in in Hlook as [Hin | Hempty].
    + exact Hin.
    + now rewrite lookup_empty in Hempty.
Qed.

Lemma metrics_by_property_lookup_witness :
  NoDup (map snd METRICS)
  /\ forall metric mtype prop : string,
       (metric, mtype, prop) ∈ METRICS <-> catalog !! prop = Some (metric, mtype).
Proof.
  assert (Hnd : NoDup (map snd METRICS)).
  { apply (bool_decide_unpack (NoDup (map snd METRICS))). vm_compute. exact I. }
  split; [exact Hnd|].
  exact (metrics_by_property_lookup METRICS Hnd).
Defined.

(** ** [_submit_metrics], further *)

(** The submission methods of [METRICS] are [gauge] and [rate]. *)
Lemma catalog_kinds :
  map_Forall (fun _ entry => snd entry = "gauge" \/ snd entry = "rate") catalog.
Proof.
  intros prop entry Hlook. unfold catalog in Hlook.
  apply metrics_by_property_fold_in in Hlook as [Hin | Hempty].
  - assert (Hrows : Forall (fun row => snd (fst row) = "gauge" \/ snd (fst row) = "rate")
                      METRICS).
    { unfold METRICS. repeat (constructor; [simpl; auto|]). constructor. }
    rewrite Forall_forall in Hrows. exact (Hrows _ Hin).
  - now rewrite lookup_empty in Hempty.
Qed.

(** The turn of a metric named by an alias raises, whatever the catalogue. *)
Lemma submit_metric_alias (metrics_by_property : gmap string (string * string))
    (m : WMIMetric) (w : World) :
  is_alias (name m) = true ->
  submit_metric metrics_by_property tt m w = (w, Raise AttributeError).
Proof.
  unfold is_alias, submit_metric. intros Halias.
  destruct (String.eqb (name m) "TotalBytesTransfered"); [reflexivity|].
  simpl in Halias. rewrite Halias. reflexivity.
Qed.

(** X4: metrics whose names are neither aliases nor properties of the
    catalogue are dropped without a trace: nothing is submitted, nothing is
    logged, nothing is raised. *)
Theorem unknown_metrics_are_dropped (wmi_metrics : list WMIMetric)
    (metrics_by_property : gmap string (string * string)) (w : World) :
  Forall (fun m => is_alias (name m) = false /\ metrics_by_property !! name m = None)
    wmi_metrics ->
  _submit_metrics wmi_metrics metrics_by_property w = (w, Return tt).
Proof.
  intros Hunknown. unfold _submit_metrics. revert w.
  induction Hunknown as [|m ms [Hplain Hnone] _ IH]; intros w.
  - reflexivity.
  - rewrite for_each_cons. unfold bind.
    rewrite submit_metric_plain by exact Hplain. rewrite Hnone. apply IH.
Qed.

Lemma unknown_metrics_are_dropped_witness :
  Forall (fun m => is_alias (name m) = false /\ catalog !! name m = None)
    [mkWMIMetric "Name" 80%float ["env:prod"; "80"];
     mkWMIMetric "Frequency_Object" 0%float ["env:prod"; "site1"; "site1"]]
  /\ _submit_metrics
       [mkWMIMetric "Name" 80%float ["env:prod"; "80"];
        mkWMIMetric "Frequency_Object" 0%float ["env:prod"; "site1"; "site1"]]
       catalog empty_world
     = (empty_world, Return tt).
Proof.
  assert (Hunknown :
            Forall (fun m => is_alias (name m) = false /\ catalog !! name m = None)
              [mkWMIMetric "Name" 80%float ["env:prod"; "80"];
               mkWMIMetric "Frequency_Object" 0%float ["env:prod"; "site1"; "site1"]]).
  { repeat constructor; vm_compute; reflexivity. }
  split; [exact Hunknown|].
  exact (unknown_metrics_are_dropped _ catalog empty_world Hunknown).
Defined.

(** X5: a metric named by one of the two aliases stops the submission where
    it stands: the metrics before it have had their turn, and what they
    submitted stays submitted; the method then raises [AttributeError] and
    the metrics after it are never looked at. *)
Theorem alias_aborts_the_submission (before after : list WMIMetric) (m : WMIMetric)
    (metrics_by_property : gmap string (string * string)) (w : World) :
  is_alias (name m) = true ->
  _submit_metrics (before ++ m :: after) metrics_by_property w
  = match _submit_metrics before metrics_by_property w with
    | (w', Return _) => (w', Raise AttributeError)
    | (w', Raise e) => (w', Raise e)
    end.
Proof.
  intros Halias. unfold _submit_metrics. rewrite for_each_app. unfold bind.
  destruct (for_each (submit_metric metrics_by_property) before tt w) as [w' [[]|e]];
    [|reflexivity].
  rewrite for_each_cons. unfold bind. now rewrite submit_metric_alias.
Qed.

Lemma alias_aborts_the_submission_witness :
  is_alias (name (mkWMIMetric "TotalConnectionAttemptsallinstances" 3%float ["env:prod"]))
  = true
  /\ _submit_metrics
       ([mkWMIMetric "ServiceUptime" 500%float ["env:prod"]]
        ++ mkWMIMetric "TotalConnectionAttemptsallinstances" 3%float ["env:prod"]
        :: [mkWMIMetric "TotalGetRequests" 10%float ["env:prod"]])
       catalog empty_world
     = match _submit_metrics [mkWMIMetric "ServiceUptime" 500%float ["env:prod"]]
               catalog empty_world with
       | (w', Return _) => (w', Raise AttributeError)
       | (w', Raise e) => (w', Raise e)
       end.
Proof.
  split; [reflexivity|].
  apply (alias_aborts_the_submission
           [mkWMIMetric "ServiceUptime" 500%float ["env:prod"]]
           [mkWMIMetric "TotalGetRequests" 10%float ["env:prod"]]
           (mkWMIMetric "TotalConnectionAttemptsallinstances" 3%float ["env:prod"])
           catalog empty_world).
  reflexivity.
Defined.

(** X6: with no alias among the names and a catalogue whose methods are
    [gauge] and [rate], the method returns, and what it has submitted is, in
    the order of the metrics, one call per metric that has an entry, by the
    method and under the name of the entry, with the value and the tags of
    the metric; warnings and service checks are as they were.
    [self.getattr] is taken to hand out the method of that name. *)
Theorem known_metrics_are_submitted_in_order (wmi_metrics : list WMIMetric)
    (metrics_by_property : gmap string (string * string)) (w : World) :
  Forall (fun m => is_alias (name m) = false) wmi_metrics ->
  map_Forall (fun _ entry => snd entry = "gauge" \/ snd entry = "rate") metrics_by_property ->
  exists w',
    _submit_metrics wmi_metrics metrics_by_property w = (w', Return tt)
    /\ submissions w' = submissions w ++ flat_map (dispatch metrics_by_property) wmi_metrics
    /\ warnings w' = warnings w
    /\ service_checks w' = service_checks w.
Proof.
  intros Hplain Hkinds. eexists. split.
  - apply submit_metrics_plain; assumption.
  - now split.
Qed.

Lemma known_metrics_are_submitted_in_order_witness :
  Forall (fun m => is_alias (name m) = false)
    [mkWMIMetric "ServiceUptime" 500%float ["env:prod"; "_Total"];
     mkWMIMetric "Name" 80%float ["env:prod"; "80"];
     mkWMIMetric "TotalGetRequests" 10%float ["env:prod"; "_Total"]]
  /\ map_Forall (fun _ entry => snd entry = "gauge" \/ snd entry = "rate") catalog
  /\ exists w',
       _submit_metrics
         [mkWMIMetric "ServiceUptime" 500%float ["env:prod"; "_Total"];
          mkWMIMetric "Name" 80%float ["env:prod"; "80"];
          mkWMIMetric "TotalGetRequests" 10%float ["env:prod"; "_Total"]]
         catalog empty_world
       = (w', Return tt)
       /\ submissions w'
          = submissions empty_world
            ++ flat_map (dispatch catalog)
                 [mkWMIMetric "ServiceUptime" 500%float ["env:prod"; "_Total"];
                  mkWMIMetric "Name" 80%float ["env:prod"; "80"];
                  mkWMIMetric "TotalGetRequests" 10%float ["env:prod"; "_Total"]]
       /\ warnings w' = warnings empty_world
       /\ service_checks w' = service_checks empty_world.
Proof.
  assert (Hplain : Forall (fun m => is_alias (name m) = false)
                     [mkWMIMetric "ServiceUptime" 500%float ["env:prod"; "_Total"];
                      mkWMIMetric "Name" 80%float ["env:prod"; "80"];
                      mkWMIMetric "TotalGetRequests" 10%float ["env:prod"; "_Total"]]).
  { repeat constructor. }
  split; [exact Hplain|]. split; [exact catalog_kinds|].
  exact (known_metrics_are_submitted_in_order _ catalog empty_world Hplain catalog_kinds).
Defined.

(** ** [_submit_events], further *)

Lemma py_eq_str_true (v : PyVal) (s : string) : py_eq_str v s = true -> v = PyStr s.
Proof.
  destruct v as [n|t|]; simpl; try discriminate.
  intros Heq. apply String.eqb_eq in Heq. now subst.
Qed.

(** The turn of a record of [_Total], whatever else the record holds. *)
Lemma submit_event_is_total (s : option Status * gset string) (o : wmi_obj) (w : World) :
  is_total o = true -> submit_event s o w = (w, Return s).
Proof.
  unfold is_total. destruct (assoc "Name" o) as [v|] eqn:HName; [|discriminate].
  intros Htotal. apply py_eq_str_true in Htotal as ->.
  now apply submit_event_total.
Qed.

(** A turn that returns: the record is the one of [_Total] and nothing has
    changed, or it is the record of a site of the working set, which has a
    [ServiceUptime]; the status was bound or has just been, the site has
    left the set and its check has been emitted. *)
Lemma submit_event_returns (status status' : option Status)
    (expected_sites expected_sites' : gset string) (o : wmi_obj) (w w' : World) :
  submit_event (status, expected_sites) o w = (w', Return (status', expected_sites')) ->
  (assoc "Name" o = Some (PyStr "_Total")
   /\ w' = w /\ status' = status /\ expected_sites' = expected_sites)
  \/ (exists (s : string) (uptime : PyVal) (st : Status),
        assoc "Name" o = Some (PyStr s)
        /\ String.eqb s "_Total" = false
        /\ assoc "ServiceUptime" o = Some uptime
        /\ (py_eq_zero uptime = true \/ status <> None)
        /\ s ∈ expected_sites
        /\ status' = Some st
        /\ expected_sites' = expected_sites ∖ {[s]}
        /\ w' = add_checks [mkServiceCheck "iis.site_up" st ["site:" +:+ s]] w).
Proof.
  unfold submit_event, getitem.
  destruct (assoc "Name" o) as [sitename|] eqn:HName; [|discriminate].
  rewrite bind_ret.
  destruct (py_eq_str sitename "_Total") eqn:Htotal.
  { apply py_eq_str_true in Htotal as ->. intros [= <- <- <-]. left. auto. }
  destruct (assoc "ServiceUptime" o) as [uptime|] eqn:Hup; [|discriminate].
  rewrite bind_ret.
  assert (Hbound : forall st,
             (if py_eq_zero uptime
              then Some (if py_eq_zero uptime then CRITICAL else OK) else status) = Some st ->
             py_eq_zero uptime = true \/ status <> None).
  { intros st. destruct (py_eq_zero uptime); [now left|]. intros ->. now right. }
  destruct (if py_eq_zero uptime
            then Some (if py_eq_zero uptime then CRITICAL else OK) else status)
    as [st|]; [|discriminate].
  specialize (Hbound st eq_refl).
  destruct sitename as [n|s|];
    cbv [bind read_status ret service_check set_remove raise]; try discriminate.
  destruct (bool_decide (s ∈ expected_sites)) eqn:Hin; [|discriminate].
  apply bool_decide_eq_true_1 in Hin. intros [= <- <- <-].
  right. exists s, uptime, st. simpl in Htotal. repeat split; auto.
Qed.

(** X8: the records of [_Total] count for nothing in the availability pass:
    with or without such a record, wherever it stands in the sample and
    whatever it holds, the pass emits the same checks and ends the same. *)
Theorem total_records_are_ignored (before after : list wmi_obj) (o : wmi_obj)
    (sites : list string) (w : World) :
  is_total o = true ->
  _submit_events (before ++ o :: after) sites w = _submit_events (before ++ after) sites w.
Proof.
  intros Htotal.
  assert (Hloop : forall s0,
             for_each submit_event (before ++ o :: after) s0 w
             = for_each submit_event (before ++ after) s0 w).
  { intros s0. rewrite !for_each_app. unfold bind.
    destruct (for_each submit_event before s0 w) as [w1 [s1|e]]; [|reflexivity].
    rewrite for_each_cons. erewrite bind_run by (now apply submit_event_is_total).
    reflexivity. }
  unfold _submit_events, bind. now rewrite Hloop.
Qed.

Lemma total_records_are_ignored_witness :
  is_total [("Name", PyStr "_Total")] = true
  /\ _submit_events ([site1_down] ++ [("Name", PyStr "_Total")] :: [site2_up])
       ["site1"; "site2"] empty_world
     = _submit_events ([site1_down] ++ [site2_up]) ["site1"; "site2"] empty_world.
Proof.
  split; [reflexivity|].
  apply (total_records_are_ignored [site1_down] [site2_up] [("Name", PyStr "_Total")]
           ["site1"; "site2"] empty_world).
  reflexivity.
Defined.

(** Whether it returns or raises, the loop over the records adds nothing to
    the world but checks of the form [critical site]. *)
Lemma events_loop_checks (wmi_sampler : list wmi_obj) :
  forall (status : option Status) (expected_sites : gset string) (w w' : World)
         (r : outcome (option Status * gset string)),
    status <> Some OK ->
    for_each submit_event wmi_sampler (status, expected_sites) w = (w', r) ->
    exists cs, w' = add_checks cs w /\ Forall (fun c => exists site, c = critical site) cs.
Proof.
  induction wmi_sampler as [|o rest IH]; intros status E w w' r Hstatus Hrun.
  - injection Hrun as <- <-. exists []. split; [now rewrite add_checks_nil | constructor].
  - rewrite for_each_cons in Hrun. unfold bind in Hrun.
    destruct (submit_event (status, E) o w) as [w1 r1] eqn:Hstep.
    apply submit_event_cases in Hstep
      as [[-> [-> | [e ->]]] | (sitename & st & _ & _ & Hst & -> & Hr)].
    + exact (IH _ _ _ _ _ Hstatus Hrun).
    + injection Hrun as <- <-. exists []. split; [now rewrite add_checks_nil | constructor].
    + assert (st = CRITICAL) as ->.
      { destruct Hst as [-> | ->]; [reflexivity|]. destruct st; congruence. }
      destruct Hr as [(s & -> & _ & ->) | ->].
      * apply IH in Hrun as (cs & -> & Hcs); [|congruence].
        eexists (_ :: cs). rewrite add_checks_app. split; [reflexivity|].
        constructor; [now exists s | exact Hcs].
      * injection Hrun as <- <-. eexists [_]. split; [reflexivity|].
        constructor; [now exists (py_str sitename) | constructor].
Qed.

(** X7: whatever the sample and the sites, and whether it returns or raises,
    [_submit_events] does nothing to the world but add service checks, and
    every check it adds is [iis.site_up] with the status CRITICAL and the one
    tag [site:] followed by a name: it never reports a site OK, never logs
    and never submits a metric. *)
Theorem submit_events_adds_only_critical_checks (wmi_sampler : list wmi_obj)
    (sites : list string) (w : World) :
  exists cs,
    fst (_submit_events wmi_sampler sites w) = add_checks cs w
    /\ Forall (fun c => exists site, c = critical site) cs.
Proof.
  unfold _submit_events, bind.
  destruct (for_each submit_event wmi_sampler (None, list_to_set sites) w)
    as [w1 r1] eqn:Hloop.
  apply events_loop_checks in Hloop as (cs & -> & Hcs); [|congruence].
  destruct r1 as [[status E]|e].
  - rewrite submit_missing_run, add_checks_app. eexists. split; [reflexivity|].
    apply Forall_app. split; [exact Hcs|].
    apply Forall_forall. intros c Hc.
    apply list_elem_of_In, in_map_iff in Hc as (site & <- & _). now exists site.
  - exists cs. now split.
Qed.

Lemma sampled_sites_cons (o : wmi_obj) (rest : list wmi_obj) :
  sampled_sites (o :: rest)
  = match site_of o with
    | Some s => s :: sampled_sites rest
    | None => sampled_sites rest
    end.
Proof. reflexivity. Qed.






(** The loop over the records returns on no other sample. *)
Lemma events_loop_only_if (wmi_sampler : list wmi_obj) :
  forall (status status' : option Status) (expected_sites expected_sites' : gset string)
         (w w' : World),
    for_each submit_event wmi_sampler (status, expected_sites) w
    = (w', Return (status', expected_sites')) ->
    Forall (fun o => exists s, assoc "Name" o = Some (PyStr s)) wmi_sampler
    /\ Forall (fun o => is_total o = false -> is_Some (assoc "ServiceUptime" o)) wmi_sampler
    /\ (status = None -> first_site_is_down wmi_sampler)
    /\ NoDup (sampled_sites wmi_sampler)
    /\ Forall (fun s => s ∈ expected_sites) (sampled_sites wmi_sampler).
Proof.
  induction wmi_sampler as [|o rest IH]; intros status status' E E' w w' Hrun.
  - repeat split; constructor.
  - rewrite for_each_cons in Hrun. unfold bind in Hrun.
    destruct (submit_event (status, E) o w) as [w1 [[status1 E1]|e]] eqn:Hstep;
      [|discriminate].
    apply submit_event_returns in Hstep
      as [(HName & -> & -> & ->)
         | (s & uptime & st & HName & Htotal & Hup & Hbound & Hs & -> & -> & ->)];
      apply IH in Hrun as (HNames & Hups & Hfirst & Hnd & Hin);
      rewrite sampled_sites_cons; unfold site_of, is_total; simpl;
      unfold is_total; rewrite HName; simpl.
    + repeat split; try assumption.
      * constructor; [eauto | exact HNames].
      * constructor; [|exact Hups]. unfold is_total. rewrite HName. discriminate.
    + rewrite Htotal. repeat split.
      * constructor; [eauto | exact HNames].
      * constructor; [|exact Hups]. intros _. eauto.
      * intros ->. exists uptime. split; [exact Hup|]. now destruct Hbound.
      * apply NoDup_cons. split; [|exact Hnd].
        intros Hdup. rewrite Forall_forall in Hin. apply Hin in Hdup.
        apply elem_of_difference in Hdup as [_ Hdup]. apply Hdup. now apply elem_of_singleton.
      * constructor; [exact Hs|].
        eapply Forall_impl; [exact Hin|]. intros s' Hs'.
        now apply elem_of_difference in Hs' as [Hs' _].
Qed.

(** X10: [_submit_events] returns on reconcilable samples only.  When it
    returns, every record has a string for [Name], every record other than
    [_Total] has a [ServiceUptime] and is named after a site of [sites], no
    two after the same, and the first of them is down: a sampled site that
    was not asked for, a second record for a site, or a first site that is
    up makes the method raise. *)
Theorem only_reconcilable_samples_return (wmi_sampler : list wmi_obj) (sites : list string)
    (w w' : World) :
  _submit_events wmi_sampler sites w = (w', Return tt) ->
  reconcilable sites wmi_sampler.
Proof.
  unfold _submit_events, bind.
  destruct (for_each submit_event wmi_sampler (None, list_to_set sites) w)
    as [w1 [[status1 E1]|e]] eqn:Hloop; [|discriminate].
  intros _. apply events_loop_only_if in Hloop as (HNames & Hups & Hfirst & Hnd & Hin).
  repeat split; try assumption.
  - now apply Hfirst.
  - eapply Forall_impl; [exact Hin|]. intros s Hs. now apply elem_of_list_to_set in Hs.
Qed.

Lemma only_reconcilable_samples_return_witness :
  _submit_events [site1_down; total_obj] ["_Total"; "site1"] empty_world
  = (add_checks [critical "site1"; critical "_Total"] empty_world, Return tt)
  /\ reconcilable ["_Total"; "site1"] [site1_down; total_obj].
Proof.
  assert (Hrun : _submit_events [site1_down; total_obj] ["_Total"; "site1"] empty_world
                 = (add_checks [critical "site1"; critical "_Total"] empty_world, Return tt))
    by (vm_compute; reflexivity).
  split; [exact Hrun|].
  exact (only_reconcilable_samples_return _ _ _ _ Hrun).
Defined.

Lemma events_loop_totals (totals : list wmi_obj) (s : option Status * gset string)
    (w : World) :
  Forall (fun o => is_total o = true) totals ->
  for_each submit_event totals s w = (w, Return s).
Proof.
  induction 1 as [|o totals Ho _ IH]; [reflexivity|].
  rewrite for_each_cons. erewrite bind_run by (now apply submit_event_is_total).
  exact IH.
Qed.

(** X11: when the first record that is not of [_Total] has a
    [ServiceUptime] other than zero, [_submit_events] raises
    [UnboundLocalError] for [status] and emits nothing, whatever the records
    after it and whatever [sites]. *)
Theorem first_site_up_raises (totals rest : list wmi_obj) (o : wmi_obj)
    (sitename uptime : PyVal) (sites : list string) (w : World) :
  Forall (fun o => is_total o = true) totals ->
  assoc "Name" o = Some sitename ->
  py_eq_str sitename "_Total" = false ->
  assoc "ServiceUptime" o = Some uptime ->
  py_eq_zero uptime = false ->
  _submit_events (totals ++ o :: rest) sites w = (w, Raise (UnboundLocalError "status")).
Proof.
  intros Htotals HName Hsite Hup Hnz.
  unfold _submit_events, bind. rewrite for_each_app. unfold bind.
  rewrite events_loop_totals by exact Htotals.
  rewrite for_each_cons. unfold bind.
  now rewrite (submit_event_up None _ o sitename uptime w HName Hsite Hup Hnz).
Qed.

Lemma first_site_up_raises_witness :
  Forall (fun o => is_total o = true) [total_obj]
  /\ assoc "Name" site2_up = Some (PyStr "site2")
  /\ py_eq_str (PyStr "site2") "_Total" = false
  /\ assoc "ServiceUptime" site2_up = Some (PyInt 7)
  /\ py_eq_zero (PyInt 7) = false
  /\ _submit_events ([total_obj] ++ site2_up :: [site1_down]) ["site1"; "site2"] empty_world
     = (empty_world, Raise (UnboundLocalError "status")).
Proof.
  assert (Htotals : Forall (fun o => is_total o = true) [total_obj])
    by (repeat constructor).
  split; [exact Htotals|]. repeat (split; [reflexivity|]).
  exact (first_site_up_raises [total_obj] [site1_down] site2_up (PyStr "site2") (PyInt 7)
           ["site1"; "site2"] empty_world Htotals eq_refl eq_refl eq_refl eq_refl).
Defined.

(** ** [_extract_metrics], further *)

Lemma tags_after_cons (sites : list string) (o : wmi_obj) (rest : list wmi_obj)
    (tags : list string) :
  tags_after sites (o :: rest) tags = tags_after sites rest (tags_after sites [o] tags).
Proof.
  simpl. destruct (assoc "Name" o) as [sitename|]; [|reflexivity].
  now destruct (py_in sitename sites && negb (py_eq_str sitename "_Total")).
Qed.

Lemma tags_after_app (sites : list string) (a b : list wmi_obj) (tags : list string) :
  tags_after sites (a ++ b) tags = tags_after sites b (tags_after sites a tags).
Proof.
  revert tags. induction a as [|o a IH]; intros tags; [reflexivity|].
  rewrite <- app_comm_cons.
  rewrite (tags_after_cons sites o (a ++ b)), (tags_after_cons sites o a). apply IH.
Qed.

Lemma assoc_elem_of {A : Type} (k : string) (l : list (string * A)) (v : A) :
  assoc k l = Some v -> (k, v) ∈ l.
Proof.
  induction l as [|[k' v'] l IH]; simpl; [discriminate|].
  destruct (String.eqb_spec k' k) as [->|_].
  - intros [= ->]. now left.
  - intros Hl. right. now apply IH.
Qed.

Section ExtractionTags.

Variable float_of_str : string -> option float64.

(** The loop over the records, with the metrics and their tags in full. *)
Lemma extract_objects_exact (sites : list string) (wmi_sampler : list wmi_obj) :
  extractable float_of_str wmi_sampler ->
  forall (tags : list string) (metrics : list WMIMetric) (w : World),
    for_each (extract_object float_of_str sites) wmi_sampler (tags, metrics) w
    = (add_warnings (flat_map (coercion_warnings float_of_str sites) wmi_sampler) w,
       Return (tags_after sites wmi_sampler tags,
               metrics ++ metrics_of_sample float_of_str sites wmi_sampler tags)).
Proof.
  intros [HNames Hitems].
  induction wmi_sampler as [|o rest IH]; intros tags metrics w.
  - simpl. now rewrite add_warnings_nil, app_nil_r.
  - apply Forall_cons in HNames as [[sitename HName] HNames].
    apply Forall_cons in Hitems as [Ho Hitems].
    rewrite for_each_cons, (tags_after_cons sites o rest). simpl flat_map.
    change (metrics_of_sample float_of_str sites (o :: rest) tags)
      with (metrics_of_items float_of_str
              (match assoc "Name" o with
               | Some sitename => py_str sitename
               | None => EmptyString
               end)
              (tags_after sites [o] tags)
              (if requested sites o then o else [])
            ++ metrics_of_sample float_of_str sites rest (tags_after sites [o] tags)).
    unfold coercion_warnings at 1, requested.
    change (tags_after sites [o] tags)
      with (match assoc "Name" o with
            | Some sitename =>
                if py_in sitename sites && negb (py_eq_str sitename "_Total")
                then tags ++ [py_str sitename] else tags
            | None => tags
            end).
    rewrite HName.
    destruct (py_in sitename sites) eqn:Hin.
    + erewrite bind_run by (apply extract_object_run; eassumption). cbv zeta.
      rewrite IH by assumption.
      rewrite add_warnings_app, <- app_assoc. reflexivity.
    + erewrite bind_run by (eapply extract_object_skip; eassumption).
      rewrite IH by assumption. reflexivity.
Qed.

(** The metrics of the properties of one record. *)
Lemma elem_of_metrics_of_items (sitename : string) (T : list string)
    (items : list (string * PyVal)) (m : WMIMetric) :
  m ∈ metrics_of_items float_of_str sitename T items
  <-> exists raw, (name m, raw) ∈ items
                  /\ py_float float_of_str raw = inr (value m)
                  /\ tags m = T ++ [sitename].
Proof.
  unfold metrics_of_items. rewrite list_elem_of_In, in_flat_map. split.
  - intros ([property raw] & Hitem & Hm). apply in_map_iff in Hm as ([n x] & <- & Hnx).
    unfold coerce_property in Hnx. simpl in Hnx.
    destruct (py_float float_of_str raw) as [[]|x'] eqn:Hraw; simpl in Hnx; try tauto.
    destruct Hnx as [[= <- <-]|[]]. exists raw. simpl.
    split; [now apply list_elem_of_In | now split].
  - intros (raw & Hitem & Hraw & HT). exists (name m, raw).
    split; [now apply list_elem_of_In|].
    apply in_map_iff. exists (name m, value m). unfold coerce_property. simpl.
    rewrite Hraw. simpl. split; [|now left]. destruct m as [n x t]. simpl in *. now subst.
Qed.

(** The metrics of a sample: each comes from a property of a record that
    was asked for, and carries the tags that the records up to its own have
    left, then the name of its record. *)
Lemma elem_of_metrics_of_sample (sites : list string) (wmi_sampler : list wmi_obj)
    (m : WMIMetric) :
  forall base : list string,
    m ∈ metrics_of_sample float_of_str sites wmi_sampler base
    <-> exists (before after : list wmi_obj) (o : wmi_obj) (sitename raw : PyVal),
          wmi_sampler = before ++ o :: after
          /\ assoc "Name" o = Some sitename
          /\ py_in sitename sites = true
          /\ (name m, raw) ∈ o
          /\ py_float float_of_str raw = inr (value m)
          /\ tags m = tags_after sites (before ++ [o]) base ++ [py_str sitename].
Proof.
  induction wmi_sampler as [|o rest IH]; intros base.
  - simpl. split.
    + intros H. now apply elem_of_nil in H.
    + intros (before & after & o & _ & _ & Heq & _). now destruct before.
  - change (metrics_of_sample float_of_str sites (o :: rest) base)
      with (metrics_of_items float_of_str
              (match assoc "Name" o with
               | Some sitename => py_str sitename
               | None => EmptyString
               end)
              (tags_after sites [o] base)
              (if requested sites o then o else [])
            ++ metrics_of_sample float_of_str sites rest (tags_after sites [o] base)).
    rewrite elem_of_app, elem_of_metrics_of_items, IH. split.
    + intros [(raw & Hitem & Hraw & HT)
             | (before & after & o' & sitename & raw & Hrest & H)].
      * unfold requested in Hitem.
        destruct (assoc "Name" o) as [sitename|] eqn:HName;
          [|now apply elem_of_nil in Hitem].
        destruct (py_in sitename sites) eqn:Hin; [|now apply elem_of_nil in Hitem].
        exists [], rest, o, sitename, raw. repeat split; assumption.
      * exists (o :: before), after, o', sitename, raw.
        destruct H as (HName & Hin & Hitem & Hraw & HT).
        split; [now rewrite Hrest|]. repeat split; try assumption.
        rewrite <- app_comm_cons, (tags_after_cons sites o (before ++ [o'])). exact HT.
    + intros (before & after & o' & sitename & raw & Heq & HName & Hin & Hitem & Hraw & HT).
      destruct before as [|b before]; simpl in Heq.
      * injection Heq as <- <-. left. exists raw. unfold requested. rewrite HName, Hin.
        repeat split; assumption.
      * injection Heq as <- Hrest. right. exists before, after, o', sitename, raw.
        split; [exact Hrest|]. repeat split; try assumption.
        rewrite <- app_comm_cons, (tags_after_cons sites o (before ++ [o'])) in HT.
        exact HT.
Qed.

End ExtractionTags.

(** X12: on a sample whose records all have a [Name] and whose integers all
    fit a double, the extraction returns, and a metric is among those it
    returns exactly when it comes from a property of a record that is asked
    for: its name is the property, its value the float of the raw value,
    and its tags are the tags that the method was called with, then the
    names of the records other than [_Total] that were asked for, from the
    first record of the sample to its own, then the name of its own record
    once more. *)
Theorem extracted_metrics_and_their_tags (float_of_str : string -> option float64)
    (wmi_sampler : list wmi_obj) (sites base : list string) (w : World) :
  extractable float_of_str wmi_sampler ->
  exists (w' : World) (metrics : list WMIMetric),
    _extract_metrics float_of_str wmi_sampler sites base w = (w', Return metrics)
    /\ forall m : WMIMetric,
         m ∈ metrics
         <-> exists (before after : list wmi_obj) (o : wmi_obj) (sitename raw : PyVal),
               wmi_sampler = before ++ o :: after
               /\ assoc "Name" o = Some sitename
               /\ py_in sitename sites = true
               /\ (name m, raw) ∈ o
               /\ py_float float_of_str raw = inr (value m)
               /\ tags m = tags_after sites (before ++ [o]) base ++ [py_str sitename].
Proof.
  intros Hok. do 2 eexists. split.
  - unfold _extract_metrics.
    erewrite bind_run by (now apply extract_objects_exact). reflexivity.
  - intros m. simpl. apply elem_of_metrics_of_sample.
Qed.

Lemma extracted_metrics_and_their_tags_witness :
  extractable float_of_literal [total_obj; site1_down; site2_up]
  /\ exists (w' : World) (metrics : list WMIMetric),
       _extract_metrics float_of_literal [total_obj; site1_down; site2_up]
         ["_Total"; "site2"] ["env:prod"] empty_world
       = (w', Return metrics)
       /\ forall m : WMIMetric,
            m ∈ metrics
            <-> exists (before after : list wmi_obj) (o : wmi_obj) (sitename raw : PyVal),
                  [total_obj; site1_down; site2_up] = before ++ o :: after
                  /\ assoc "Name" o = Some sitename
                  /\ py_in sitename ["_Total"; "site2"] = true
                  /\ (name m, raw) ∈ o
                  /\ py_float float_of_literal raw = inr (value m)
                  /\ tags m = tags_after ["_Total"; "site2"] (before ++ [o]) ["env:prod"]
                              ++ [py_str sitename].
Proof.
  assert (Hok : extractable float_of_literal [total_obj; site1_down; site2_up]).
  { split.
    - repeat constructor; eexists; reflexivity.
    - repeat constructor; vm_compute; discriminate. }
  split; [exact Hok|].
  exact (extracted_metrics_and_their_tags float_of_literal _ ["_Total"; "site2"]
           ["env:prod"] empty_world Hok).
Defined.

Section ExtractionFrames.

Variable float_of_str : string -> option float64.

(** The metrics gathered so far are only ever added to: a loop over
    properties that starts with [metrics] does what it does starting with
    none, and returns [metrics] followed by what it then returns. *)
Lemma extract_properties_acc (sitename : string) (T : list string)
    (items : list (string * PyVal)) :
  forall (metrics : list WMIMetric) (w : World),
    for_each (extract_property float_of_str sitename T) items metrics w
    = match for_each (extract_property float_of_str sitename T) items [] w with
      | (w', Return new) => (w', Return (metrics ++ new))
      | (w', Raise e) => (w', Raise e)
      end.
Proof.
  induction items as [|[property raw] items IH]; intros metrics w.
  - simpl. now rewrite app_nil_r.
  - rewrite !for_each_cons. unfold bind. rewrite !extract_property_run.
    destruct (py_float float_of_str raw) as [[]|x]; try reflexivity; try apply IH.
    rewrite (IH (metrics ++ _)), (IH ([] ++ _)).
    destruct (for_each _ items [] w) as [w' [new|e]]; [|reflexivity].
    now rewrite <- app_assoc.
Qed.

Lemma extract_object_acc (sites : list string) (o : wmi_obj) (T : list string)
    (metrics : list WMIMetric) (w : World) :
  extract_object float_of_str sites (T, metrics) o w
  = match extract_object float_of_str sites (T, []) o w with
    | (w', Return (T', new)) => (w', Return (T', metrics ++ new))
    | (w', Raise e) => (w', Raise e)
    end.
Proof.
  unfold extract_object, getitem.
  destruct (assoc "Name" o) as [sitename|]; [|reflexivity].
  rewrite !bind_ret.
  destruct (py_in sitename sites).
  - change (negb true) with false. cbv iota. unfold bind.
    rewrite (extract_properties_acc _ _ _ metrics).
    now destruct (for_each _ (iteritems o) [] w) as [w1 [new|e]].
  - change (negb false) with true. cbv iota. unfold ret. now rewrite app_nil_r.
Qed.

Lemma extract_objects_acc (sites : list string) (wmi_sampler : list wmi_obj) :
  forall (T : list string) (metrics : list WMIMetric) (w : World),
    for_each (extract_object float_of_str sites) wmi_sampler (T, metrics) w
    = match for_each (extract_object float_of_str sites) wmi_sampler (T, []) w with
      | (w', Return (T', new)) => (w', Return (T', metrics ++ new))
      | (w', Raise e) => (w', Raise e)
      end.
Proof.
  induction wmi_sampler as [|o rest IH]; intros T metrics w.
  - simpl. now rewrite app_nil_r.
  - rewrite !for_each_cons. unfold bind. rewrite (extract_object_acc sites o T metrics).
    destruct (extract_object float_of_str sites (T, []) o w) as [w1 [[T1 new]|e]];
      [|reflexivity].
    rewrite (IH T1 (metrics ++ new)), (IH T1 new).
    destruct (for_each _ rest (T1, []) w1) as [w2 [[T2 new']|e]]; [|reflexivity].
    now rewrite <- app_assoc.
Qed.

(** Whether it returns or raises, a loop of the extraction adds nothing to
    the world but warnings. *)
Lemma extract_properties_logs (sitename : string) (T : list string)
    (items : list (string * PyVal)) :
  forall (metrics : list WMIMetric) (w : World),
    exists msgs,
      fst (for_each (extract_property float_of_str sitename T) items metrics w)
      = add_warnings msgs w.
Proof.
  induction items as [|[property raw] items IH]; intros metrics w.
  - exists []. simpl. now rewrite add_warnings_nil.
  - rewrite for_each_cons. unfold bind. rewrite extract_property_run.
    destruct (py_float float_of_str raw) as [[]|x];
      try (exists []; simpl; now rewrite add_warnings_nil);
      try apply IH.
    + destruct (IH metrics (add_warnings [non_digit_warning property] w)) as [msgs Hmsgs].
      eexists. rewrite Hmsgs. apply add_warnings_app.
    + destruct (IH metrics (add_warnings [missing_warning property] w)) as [msgs Hmsgs].
      eexists. rewrite Hmsgs. apply add_warnings_app.
Qed.

Lemma extract_object_logs (sites : list string) (o : wmi_obj)
    (s : list string * list WMIMetric) (w : World) :
  exists msgs, fst (extract_object float_of_str sites s o w) = add_warnings msgs w.
Proof.
  destruct s as [T metrics]. unfold extract_object, getitem.
  destruct (assoc "Name" o) as [sitename|];
    [|exists []; simpl; now rewrite add_warnings_nil].
  rewrite bind_ret.
  destruct (py_in sitename sites).
  - change (negb true) with false. cbv iota. unfold bind.
    match goal with
    | |- context [for_each (extract_property ?f ?n ?t) ?i ?m ?w0] =>
        destruct (extract_properties_logs n t i m w0) as [msgs Hmsgs];
        destruct (for_each (extract_property f n t) i m w0) as [w1 [new|e]]
    end; now exists msgs.
  - exists []. simpl. now rewrite add_warnings_nil.
Qed.

Lemma extract_objects_logs (sites : list string) (wmi_sampler : list wmi_obj) :
  forall (s : list string * list WMIMetric) (w : World),
    exists msgs,
      fst (for_each (extract_object float_of_str sites) wmi_sampler s w)
      = add_warnings msgs w.
Proof.
  induction wmi_sampler as [|o rest IH]; intros s w.
  - exists []. simpl. now rewrite add_warnings_nil.
  - rewrite for_each_cons. unfold bind.
    destruct (extract_object_logs sites o s w) as [msgs Hmsgs].
    destruct (extract_object float_of_str sites s o w) as [w1 [s1|e]];
      simpl in Hmsgs; subst w1.
    + destruct (IH s1 (add_warnings msgs w)) as [msgs' Hmsgs'].
      eexists. rewrite Hmsgs'. apply add_warnings_app.
    + now exists msgs.
Qed.

End ExtractionFrames.

(** X13: the extraction of a sample made of two parts is the extraction of
    the first part followed by the extraction of the second, not with the
    tags that the method was called with, but with the tags that the first
    part has left: the metrics of the first part, then those of the second,
    which carry the names of the sites of the first. *)
Theorem extraction_of_appended_samples (float_of_str : string -> option float64)
    (first second : list wmi_obj) (sites base : list string) (w : World) :
  extractable float_of_str first ->
  _extract_metrics float_of_str (first ++ second) sites base w
  = match _extract_metrics float_of_str first sites base w with
    | (w1, Return metrics1) =>
        match _extract_metrics float_of_str second sites
                (tags_after sites first base) w1 with
        | (w2, Return metrics2) => (w2, Return (metrics1 ++ metrics2))
        | (w2, Raise e) => (w2, Raise e)
        end
    | (w1, Raise e) => (w1, Raise e)
    end.
Proof.
  intros Hok. unfold _extract_metrics, bind. rewrite for_each_app. unfold bind.
  rewrite (extract_objects_exact float_of_str sites first Hok base [] w).
  rewrite extract_objects_acc. unfold ret.
  now destruct (for_each _ second _ _) as [w2 [[T2 metrics2]|e]].
Qed.

Lemma extraction_of_appended_samples_witness :
  extractable float_of_literal [total_obj; site1_down]
  /\ _extract_metrics float_of_literal ([total_obj; site1_down] ++ [site2_up])
       ["_Total"; "site1"; "site2"] ["env:prod"] empty_world
     = match _extract_metrics float_of_literal [total_obj; site1_down]
               ["_Total"; "site1"; "site2"] ["env:prod"] empty_world with
       | (w1, Return metrics1) =>
           match _extract_metrics float_of_literal [site2_up] ["_Total"; "site1"; "site2"]
                   (tags_after ["_Total"; "site1"; "site2"] [total_obj; site1_down]
                      ["env:prod"]) w1 with
           | (w2, Return metrics2) => (w2, Return (metrics1 ++ metrics2))
           | (w2, Raise e) => (w2, Raise e)
           end
       | (w1, Raise e) => (w1, Raise e)
       end.
Proof.
  assert (Hok : extractable float_of_literal [total_obj; site1_down]).
  { split.
    - repeat constructor; eexists; reflexivity.
    - repeat constructor; vm_compute; discriminate. }
  split; [exact Hok|].
  exact (extraction_of_appended_samples float_of_literal [total_obj; site1_down] [site2_up]
           ["_Total"; "site1"; "site2"] ["env:prod"] empty_world Hok).
Defined.

(** X14: whatever the sample, and whether it returns or raises,
    [_extract_metrics] does nothing to the world but log warnings after the
    ones that are there: it emits no service check and submits no metric. *)
Theorem extraction_only_logs (float_of_str : string -> option float64)
    (wmi_sampler : list wmi_obj) (sites base : list string) (w : World) :
  exists msgs,
    fst (_extract_metrics float_of_str wmi_sampler sites base w) = add_warnings msgs w.
Proof.
  unfold _extract_metrics, bind.
  destruct (extract_objects_logs float_of_str sites wmi_sampler (base, []) w)
    as [msgs Hmsgs].
  destruct (for_each _ wmi_sampler (base, []) w) as [w1 [s1|e]]; now exists msgs.
Qed.

(** X15: a record without a [Name] makes the extraction raise [KeyError] for
    [Name] when its turn comes.  The metrics of the records before it are
    lost with the return value, their warnings stay logged, and the records
    after it are not looked at. *)
Theorem record_without_name_raises (float_of_str : string -> option float64)
    (before after : list wmi_obj) (o : wmi_obj) (sites base : list string) (w : World) :
  assoc "Name" o = None ->
  _extract_metrics float_of_str (before ++ o :: after) sites base w
  = match _extract_metrics float_of_str before sites base w with
    | (w1, Return _) => (w1, Raise (KeyError (PyStr "Name")))
    | (w1, Raise e) => (w1, Raise e)
    end.
Proof.
  intros HName. unfold _extract_metrics, bind. rewrite for_each_app. unfold bind.
  destruct (for_each _ before (base, []) w) as [w1 [[T1 metrics1]|e]]; [|reflexivity].
  rewrite for_each_cons. unfold bind, extract_object, getitem.
  now rewrite HName.
Qed.

Lemma record_without_name_raises_witness :
  assoc "Name" [("ServiceUptime", PyInt 1)] = None
  /\ _extract_metrics float_of_literal
       ([site2_up] ++ [("ServiceUptime", PyInt 1)] :: [total_obj])
       ["_Total"; "site2"] ["env:prod"] empty_world
     = match _extract_metrics float_of_literal [site2_up] ["_Total"; "site2"] ["env:prod"]
               empty_world with
       | (w1, Return _) => (w1, Raise (KeyError (PyStr "Name")))
       | (w1, Raise e) => (w1, Raise e)
       end.
Proof.
  split; [reflexivity|].
  apply (record_without_name_raises float_of_literal [site2_up] [total_obj]
           [("ServiceUptime", PyInt 1)] ["_Total"; "site2"] ["env:prod"] empty_world).
  reflexivity.
Defined.

(** X16: the [Name] of a record is one of the properties that the extraction
    goes through.  A record that is asked for and whose name is not a number
    therefore costs a warning at every extraction: a non digit value for
    property [Name]. *)
Theorem requested_record_warns_about_its_name (float_of_str : string -> option float64)
    (wmi_sampler : list wmi_obj) (sites base : list string) (w : World)
    (o : wmi_obj) (s : string) :
  extractable float_of_str wmi_sampler ->
  o ∈ wmi_sampler ->
  assoc "Name" o = Some (PyStr s) ->
  py_in (PyStr s) sites = true ->
  float_of_str s = None ->
  exists (metrics : list WMIMetric) (msgs : list string),
    _extract_metrics float_of_str wmi_sampler sites base w
    = (add_warnings msgs w, Return metrics)
    /\ non_digit_warning "Name" ∈ msgs.
Proof.
  intros Hok Ho HName Hin Hnan. do 2 eexists. split.
  - unfold _extract_metrics.
    erewrite bind_run by (now apply extract_objects_exact). reflexivity.
  - apply list_elem_of_In, in_flat_map. exists o. split; [now apply list_elem_of_In|].
    unfold coercion_warnings, requested. rewrite HName, Hin.
    apply in_flat_map. exists ("Name", PyStr s).
    split; [now apply list_elem_of_In, assoc_elem_of|].
    unfold coerce_property. simpl. rewrite Hnan. now left.
Qed.

Lemma requested_record_warns_about_its_name_witness :
  extractable float_of_literal [total_obj; site1_down]
  /\ site1_down ∈ [total_obj; site1_down]
  /\ assoc "Name" site1_down = Some (PyStr "site1")
  /\ py_in (PyStr "site1") ["site1"] = true
  /\ float_of_literal "site1" = None
  /\ exists (metrics : list WMIMetric) (msgs : list string),
       _extract_metrics float_of_literal [total_obj; site1_down] ["site1"] [] empty_world
       = (add_warnings msgs empty_world, Return metrics)
       /\ non_digit_warning "Name" ∈ msgs.
Proof.
  assert (Hok : extractable float_of_literal [total_obj; site1_down]).
  { split.
    - repeat constructor; eexists; reflexivity.
    - repeat constructor; vm_compute; discriminate. }
  assert (Ho : site1_down ∈ [total_obj; site1_down]) by (right; left).
  split; [exact Hok|]. split; [exact Ho|]. repeat (split; [reflexivity|]).
  exact (requested_record_warns_about_its_name float_of_literal _ ["site1"] [] empty_world
           site1_down "site1" Hok Ho eq_refl eq_refl eq_refl).
Defined.

(** ** [_submit_events] with the default [sites] *)

(** X17: with the default [sites], which hold [_Total] alone,
    [_submit_events] returns only on samples whose records are all of
    [_Total], and what it then emits is one check, which reports [_Total]
    CRITICAL: a sample with the record of any site makes it raise. *)
Theorem default_sites_report_total_down (wmi_sampler : list wmi_obj) (w w' : World) :
  _submit_events wmi_sampler ["_Total"] w = (w', Return tt) ->
  Forall (fun o => is_total o = true) wmi_sampler
  /\ w' = add_checks [critical "_Total"] w.
Proof.
  intros Hrun.
  assert (Htotals : Forall (fun o => is_total o = true) wmi_sampler).
  { revert Hrun. unfold _submit_events, bind.
    destruct (for_each submit_event wmi_sampler (None, list_to_set ["_Total"]) w)
      as [w1 [[status1 E1]|e]] eqn:Hloop; [|discriminate].
    intros _. apply events_loop_only_if in Hloop as (HNames & _ & _ & _ & Hin).
    clear -HNames Hin. induction HNames as [|o rest [s HName] _ IH]; [constructor|].
    rewrite sampled_sites_cons in Hin. unfold site_of in Hin. rewrite HName in Hin.
    assert (Htot : is_total o = String.eqb s "_Total").
    { unfold is_total. now rewrite HName. }
    destruct (String.eqb s "_Total") eqn:Htotal.
    - constructor; [exact Htot | now apply IH].
    - apply Forall_cons in Hin as [Hs _]. apply elem_of_list_to_set in Hs.
      apply elem_of_cons in Hs as [-> | Hs]; [discriminate|].
      now apply elem_of_nil in Hs. }
  split; [exact Htotals|].
  unfold _submit_events in Hrun.
  erewrite bind_run in Hrun by (now apply events_loop_totals).
  simpl snd in Hrun. rewrite submit_missing_run in Hrun.
  injection Hrun as <-. reflexivity.
Qed.

Lemma default_sites_report_total_down_witness :
  _submit_events [total_obj; total_obj] ["_Total"] empty_world
  = (add_checks [critical "_Total"] empty_world, Return tt)
  /\ Forall (fun o => is_total o = true) [total_obj; total_obj]
  /\ add_checks [critical "_Total"] empty_world = add_checks [critical "_Total"] empty_world.
Proof.
  assert (Hrun : _submit_events [total_obj; total_obj] ["_Total"] empty_world
                 = (add_checks [critical "_Total"] empty_world, Return tt))
    by (vm_compute; reflexivity).
  split; [exact Hrun|].
  exact (default_sites_report_total_down _ _ _ Hrun).
Defined.
